(** * django-vite: the asset loader of [django_vite/templatetags/django_vite.py]

    A shallow embedding of [DjangoViteAssetLoader] and of the template tags
    built on it, followed by the properties of the tag generation, of the CSS
    dependency walk and of the singleton construction.

    Conventions of the embedding.
    - A Python [dict] is an association list in insertion order, read by its
      first binding of a key; [dict_set] keeps the keys unique, as the
      interpreter does.
    - A Python call either returns, raises, or recurses without end.  The
      recursion of [_generate_css_files_of_asset] is driven by a fuel
      argument; [OutOfFuel] is the answer of a run that needed a deeper call
      stack than the fuel allows, so "no fuel returns" stands for an unbounded
      recursion.
    - [already_processed] is one list object shared by the whole recursion:
      every call receives the current list and hands the updated one back.
    - [cls._instance] is the only state that survives a call: the template
      tags pass it in and out explicitly.
    - Where what one call leaves behind for the next is the question, the
      list objects themselves are kept in a store ([heap]), with references,
      allocation by [[]] and [append]/[extend] in place; the functions on
      list objects carry the suffix [_st] and are proved to do what the
      functions on list values say. *)

From Stdlib Require Import String Ascii List Bool Arith Lia ListDec.
Import ListNotations.

Local Open Scope string_scope.
Local Open Scope list_scope.

Infix "+:+" := String.append (at level 60, right associativity).

(** ** Python values *)

Definition dict (V : Type) : Type := list (string * V).

Fixpoint dict_get {V : Type} (d : dict V) (k : string) : option V :=
  match d with
  | [] => None
  | (k', v) :: d' => if String.eqb k' k then Some v else dict_get d' k
  end.

(** [k in d] *)
Definition dict_in {V : Type} (k : string) (d : dict V) : bool :=
  match dict_get d k with Some _ => true | None => false end.

(** [d[k] = v]: the value is replaced where the key stands, a new key goes
    to the end. *)
Fixpoint dict_set {V : Type} (d : dict V) (k : string) (v : V) : dict V :=
  match d with
  | [] => [(k, v)]
  | (k', v') :: d' =>
      if String.eqb k' k then (k', v) :: d' else (k', v') :: dict_set d' k v
  end.

(** [{**d, **kw}] *)
Definition dict_update {V : Type} (d kw : dict V) : dict V :=
  fold_left (fun acc kv => dict_set acc (fst kv) (snd kv)) kw d.

Definition dict_keys {V : Type} (d : dict V) : list string := map fst d.

(** The keys of a dict are pairwise different. *)
Definition is_dict {V : Type} (d : dict V) : Prop := NoDup (dict_keys d).

(** [x in l] for a list of strings. *)
Definition list_in (x : string) (l : list string) : bool :=
  existsb (String.eqb x) l.

(** [motif in s] for strings: [motif] occurs in [s]. *)
Fixpoint str_contains (motif s : string) : bool :=
  String.prefix motif s
  || match s with
     | EmptyString => false
     | String _ s' => str_contains motif s'
     end.

(** [s[-1]] *)
Fixpoint str_last (s : string) : option ascii :=
  match s with
  | EmptyString => None
  | String c EmptyString => Some c
  | String _ s' => str_last s'
  end.

Definition NL : string := String (ascii_of_nat 10) EmptyString.
Definition DQ : string := String (ascii_of_nat 34) EmptyString.
Definition slash : ascii := ascii_of_nat 47.

(** [sep.join(l)] *)
Definition join (sep : string) (l : list string) : string := String.concat sep l.

(** [s] with a [/] put at its end unless it ends in one already. *)
Definition ensure_trailing_slash (s : string) : string :=
  match str_last s with
  | Some c => if Ascii.eqb c slash then s else s +:+ "/"
  | None => "/"
  end.

(** ** Outcomes of a call *)

Inductive exn : Type :=
| RuntimeError (msg : string)
| KeyError (key : string)
| IndexError
| TypeError
| AttributeError.

Inductive outcome (A : Type) : Type :=
| Return (a : A)
| Raise (e : exn)
| OutOfFuel.

Arguments Return {A} a.
Arguments Raise {A} e.
Arguments OutOfFuel {A}.

Definition bind {A B : Type} (c : outcome A) (k : A -> outcome B) : outcome B :=
  match c with
  | Return a => k a
  | Raise e => Raise e
  | OutOfFuel => OutOfFuel
  end.

Notation "x <- c ;; k" := (bind c (fun x => k))
  (at level 61, c at next level, right associativity).

(** ** The manifest and the loader *)

(** An entry of Vite's [manifest.json].  The code reads ["file"] by plain
    subscript and tests ["imports"] and ["css"] for membership first: the
    first is a field of every entry, the other two are optional. *)
Record ManifestEntry : Type := mkEntry {
  file : string;
  imports : option (list string);
  css : option (list string)
}.

Definition Manifest : Type := dict ManifestEntry.

(** The object behind [self]: its only attribute is [_manifest]. *)
Record DjangoViteAssetLoader : Type := mkLoader {
  _manifest : option Manifest
}.

(** [django_vite.conf.settings], as the module reads it.  The port is kept as
    the text the f-string prints for it. *)
Record Settings : Type := mkSettings {
  DJANGO_VITE_DEV_MODE : bool;
  DJANGO_VITE_MANIFEST_PATH : string;
  STATIC_URL : string;
  DJANGO_VITE_STATIC_URL_PREFIX : string;
  DJANGO_VITE_DEV_SERVER_PROTOCOL : string;
  DJANGO_VITE_DEV_SERVER_HOST : string;
  DJANGO_VITE_DEV_SERVER_PORT : string;
  DJANGO_VITE_WS_CLIENT_URL : string;
  DJANGO_VITE_REACT_REFRESH_URL : string;
  DJANGO_VITE_LEGACY_POLYFILLS_MOTIF : string
}.

(** What the module calls outside itself: [urllib.parse.urljoin], Django's
    application registry and static files storage, the file system and
    [json.loads].  Reading and parsing answer with the content or with the
    text of the exception they raise. *)
Record Host : Type := mkHost {
  urljoin : string -> string -> string;
  apps_is_installed : string -> bool;
  staticfiles_storage_url : string -> string;
  read_text : string -> string + string;
  json_loads : string -> Manifest + string
}.

(** ** Sample data used by the closed examples *)

(** A host for the closed examples.  Its [urljoin] is plain concatenation,
    which is what [urllib.parse.urljoin] answers on the sample inputs below
    (an empty base, or a base that ends in [/] or is a bare origin, joined
    with a relative path or with a path starting with [/]); its static files
    storage prefixes [/static/], as Django's [StaticFilesStorage] does for
    [STATIC_URL = "/static/"]. *)
Definition sample_host (disk : string -> string + string)
    (parse : string -> Manifest + string) : Host :=
  mkHost (fun base url => base +:+ url) (fun _ => true)
    (fun name => "/static/" +:+ name) disk parse.

Definition no_disk : string -> string + string :=
  fun _ => inr "No such file or directory".

Definition no_json : string -> Manifest + string :=
  fun _ => inr "Expecting value".

Definition one_file_disk : string -> string + string :=
  fun _ => inl "manifest.json as Vite wrote it".

Definition parse_as (m : Manifest) : string -> Manifest + string :=
  fun _ => inl m.

Definition sample_settings (dev : bool) : Settings :=
  mkSettings dev "/app/static/manifest.json" "/static/" EmptyString
    "http" "localhost" "3000" "@vite/client" "@react-refresh" "legacy-polyfills".

(** Development settings in which neither [STATIC_URL] nor the prefix is
    set to any text. *)
Definition unset_static_settings : Settings :=
  mkSettings true "/app/static/manifest.json" EmptyString EmptyString
    "http" "localhost" "3000" "@vite/client" "@react-refresh" "legacy-polyfills".

(** Production settings whose polyfills motif is the empty text. *)
Definition empty_motif_settings : Settings :=
  mkSettings false "/app/static/manifest.json" "/static/" EmptyString
    "http" "localhost" "3000" "@vite/client" "@react-refresh" EmptyString.

Definition production : Settings := sample_settings false.
Definition development : Settings := sample_settings true.

Definition entry (f : string) (i c : option (list string)) : ManifestEntry :=
  mkEntry f i c.

(** [a.js] imports [b.js] and [c.js]; both list [x.css]. *)
Definition diamond_manifest : Manifest :=
  [ ("a.js", entry "assets/a.1.js" (Some ["b.js"; "c.js"]) (Some ["a.css"]));
    ("b.js", entry "assets/b.2.js" None (Some ["x.css"; "b.css"]));
    ("c.js", entry "assets/c.3.js" (Some []) (Some ["x.css"; "c.css"])) ].


(** A rank that goes down along the imports of the two manifests above. *)
Definition sample_rank (path : string) : nat :=
  if String.eqb path "a.js" then 1 else 0.

(** [a.js] imports itself. *)
Definition cyclic_manifest : Manifest :=
  [ ("a.js", entry "assets/a.1.js" (Some ["a.js"]) (Some ["a.css"])) ].

(** [a.js] names an import that is no key of the manifest. *)
Definition dangling_manifest : Manifest :=
  [ ("a.js", entry "assets/a.1.js" (Some ["missing.js"]) None) ].

(** The missing import stands before the cycle. *)
Definition dangling_then_cycle_manifest : Manifest :=
  [ ("a.js", entry "assets/a.1.js" (Some ["missing.js"; "a.js"]) None) ].

(** The cycle stands before the missing import. *)
Definition cycle_then_dangling_manifest : Manifest :=
  [ ("a.js", entry "assets/a.1.js" (Some ["a.js"; "missing.js"]) None) ].

(** [main.js] imports [lib.js], whose import [gone.js] is no key. *)
Definition deep_dangling_manifest : Manifest :=
  [ ("main.js", entry "assets/main.1.js" (Some ["lib.js"]) (Some ["main.css"]));
    ("lib.js", entry "assets/lib.2.js" (Some ["gone.js"]) None) ].

Definition legacy_manifest : Manifest :=
  [ ("main.js", entry "assets/main.1.js" None None);
    ("vite/legacy-polyfills", entry "assets/polyfills-legacy.2.js" None None);
    ("other/legacy-polyfills", entry "assets/other.3.js" None None) ].

(** The manifest file cannot be read. *)
Definition broken_host : Host := sample_host no_disk no_json.

(** The manifest file is there and parses to [diamond_manifest]. *)
Definition built_host : Host :=
  sample_host one_file_disk (parse_as diamond_manifest).

(** The manifest file is there and is no JSON. *)
Definition unparsed_host : Host := sample_host one_file_disk no_json.

(** A stand-in for [urljoin] that also takes a reference starting with [/]:
    such a reference replaces the whole path of the base, so it follows a
    base that is a bare origin ([scheme://host:port], which is how the
    module builds its only base holding [://]) and stands alone after a
    base that is a path.  An empty reference gives the base, any other is
    appended to the base, as for [sample_host]. *)
Definition rooted_urljoin (base url : string) : string :=
  match url with
  | EmptyString => base
  | String c _ =>
      if Ascii.eqb c slash
      then (if str_contains "://" base then base +:+ url else url)
      else base +:+ url
  end.

Definition rooted_host : Host :=
  mkHost rooted_urljoin (fun _ => true) (fun name => "/static/" +:+ name)
    no_disk no_json.

(** ** Tag formatting (static methods that read no setting) *)

(** [f'{key}="{value}"'] *)
Definition format_attr (kv : string * string) : string :=
  fst kv +:+ "=" +:+ DQ +:+ snd kv +:+ DQ.

Definition _generate_script_tag (src : string) (attrs : dict string) : string :=
  let attrs_str := join " " (map format_attr attrs) in
  "<script " +:+ attrs_str +:+ " src=" +:+ DQ +:+ src +:+ DQ +:+ "></script>".

Definition _generate_stylesheet_tag (href : string) : string :=
  "<link rel=" +:+ DQ +:+ "stylesheet" +:+ DQ +:+ " href=" +:+ DQ +:+ href
  +:+ DQ +:+ " />".

(** A tag is a script tag when it opens a [script] element; the tags of
    the module are built by the two functions above only. *)
Definition is_script_tag (t : string) : bool := String.prefix "<script " t.

(** [not self._manifest or path not in self._manifest]: [None] and the empty
    dict are both false in a condition, and [or] stops at the first true
    operand. *)
Definition manifest_lacks (self : DjangoViteAssetLoader) (path : string) : bool :=
  match _manifest self with
  | None => true
  | Some [] => true
  | Some m => negb (dict_in path m)
  end.

(** [self._manifest[path]] *)
Definition manifest_getitem (self : DjangoViteAssetLoader) (path : string)
  : outcome ManifestEntry :=
  match _manifest self with
  | None => Raise TypeError
  | Some m =>
      match dict_get m path with
      | Some manifest_entry => Return manifest_entry
      | None => Raise (KeyError path)
      end
  end.

(** The [for import_path in manifest_entry["imports"]] loop, over the
    recursive call [rec]: [tags.extend(rec(import_path, already_processed))]. *)
Fixpoint imports_loop (rec : string -> list string -> outcome (list string * list string))
    (l : list string) (tags already_processed : list string)
  : outcome (list string * list string) :=
  match l with
  | [] => Return (tags, already_processed)
  | import_path :: l' =>
      r <- rec import_path already_processed ;;
      imports_loop rec l' (tags ++ fst r) (snd r)
  end.

(** The [for css_path in manifest_entry["css"]] loop, over the function [tag]
    that turns a CSS path into its [<link>] tag. *)
Fixpoint css_loop (tag : string -> string) (l : list string)
    (tags already_processed : list string) : list string * list string :=
  match l with
  | [] => (tags, already_processed)
  | css_path :: l' =>
      css_loop tag l'
        (if negb (list_in css_path already_processed)
         then tags ++ [tag css_path] else tags)
        (already_processed ++ [css_path])
  end.

Section Loader.

Variable settings : Settings.
Variable host : Host.

(** *** URLs *)

Definition _generate_vite_server_url (path : string) : outcome string :=
  let DJANGO_VITE_STATIC_URL :=
    urljoin host (STATIC_URL settings) (DJANGO_VITE_STATIC_URL_PREFIX settings) in
  match str_last DJANGO_VITE_STATIC_URL with
  | None => Raise IndexError
  | Some c =>
      let DJANGO_VITE_STATIC_URL :=
        if negb (Ascii.eqb c slash)
        then DJANGO_VITE_STATIC_URL +:+ "/" else DJANGO_VITE_STATIC_URL in
      Return
        (urljoin host
           (DJANGO_VITE_DEV_SERVER_PROTOCOL settings +:+ "://"
            +:+ DJANGO_VITE_DEV_SERVER_HOST settings +:+ ":"
            +:+ DJANGO_VITE_DEV_SERVER_PORT settings)
           (urljoin host DJANGO_VITE_STATIC_URL path))
  end.

Definition _generate_production_server_url (path : string) : string :=
  if apps_is_installed host "django.contrib.staticfiles"
  then staticfiles_storage_url host
         (urljoin host (DJANGO_VITE_STATIC_URL_PREFIX settings) path)
  else urljoin host (DJANGO_VITE_STATIC_URL_PREFIX settings) path.

(** The development URL as the specification words it: the origin
    [protocol://host:port] joined with the join of the static URL, ended by
    a [/], and the asset path.  The static URL is itself the join of
    [STATIC_URL] and [DJANGO_VITE_STATIC_URL_PREFIX]. *)
Definition dev_server_url (path : string) : string :=
  urljoin host
    (DJANGO_VITE_DEV_SERVER_PROTOCOL settings +:+ "://"
     +:+ DJANGO_VITE_DEV_SERVER_HOST settings +:+ ":"
     +:+ DJANGO_VITE_DEV_SERVER_PORT settings)
    (urljoin host
       (ensure_trailing_slash
          (urljoin host (STATIC_URL settings)
             (DJANGO_VITE_STATIC_URL_PREFIX settings)))
       path).

(** *** The three errors the module raises, all of them [RuntimeError] *)

Definition AssetNotFoundError (path : string) : exn :=
  RuntimeError ("Cannot find " +:+ path +:+ " in Vite manifest at "
                +:+ DJANGO_VITE_MANIFEST_PATH settings).

Definition PolyfillNotFoundError : exn :=
  RuntimeError ("Vite legacy polyfills not found in manifest at "
                +:+ DJANGO_VITE_MANIFEST_PATH settings).

Definition ManifestLoadError (error : string) : exn :=
  RuntimeError ("Cannot read Vite manifest file at "
                +:+ DJANGO_VITE_MANIFEST_PATH settings +:+ " : " +:+ error).

(** *** The CSS dependency walk *)

Definition css_tag (css_path : string) : string :=
  _generate_stylesheet_tag (_generate_production_server_url css_path).

Fixpoint _generate_css_files_of_asset (fuel : nat) (self : DjangoViteAssetLoader)
    (path : string) (already_processed : list string)
  : outcome (list string * list string) :=
  match fuel with
  | O => OutOfFuel
  | S fuel' =>
      manifest_entry <- manifest_getitem self path ;;
      r <- match imports manifest_entry with
           | Some l =>
               imports_loop (_generate_css_files_of_asset fuel' self) l []
                 already_processed
           | None => Return ([], already_processed)
           end ;;
      Return
        match css manifest_entry with
        | Some l => css_loop css_tag l (fst r) (snd r)
        | None => r
        end
  end.

(** *** The methods of the loader *)

Definition generate_vite_asset (self : DjangoViteAssetLoader) (fuel : nat)
    (path : string) (kwargs : dict string) : outcome string :=
  if DJANGO_VITE_DEV_MODE settings then
    url <- _generate_vite_server_url path ;;
    Return (_generate_script_tag url (dict_update [("type", "module")] kwargs))
  else if manifest_lacks self path then Raise (AssetNotFoundError path)
  else
    manifest_entry <- manifest_getitem self path ;;
    let scripts_attrs :=
      dict_update [("type", "module"); ("crossorigin", EmptyString)] kwargs in
    r <- _generate_css_files_of_asset fuel self path [] ;;
    let tags := [] ++ fst r in
    let tags :=
      tags ++ [_generate_script_tag
                 (_generate_production_server_url (file manifest_entry))
                 scripts_attrs] in
    Return (join NL tags).

Definition generate_vite_asset_url (self : DjangoViteAssetLoader) (path : string)
  : outcome string :=
  if DJANGO_VITE_DEV_MODE settings then _generate_vite_server_url path
  else if manifest_lacks self path then Raise (AssetNotFoundError path)
  else
    manifest_entry <- manifest_getitem self path ;;
    Return (_generate_production_server_url (file manifest_entry)).

(** The [for path, content in self._manifest.items()] loop. *)
Fixpoint polyfills_loop (items : Manifest) (scripts_attrs : dict string)
  : outcome string :=
  match items with
  | [] => Raise PolyfillNotFoundError
  | (path, content) :: items' =>
      if str_contains (DJANGO_VITE_LEGACY_POLYFILLS_MOTIF settings) path
      then Return (_generate_script_tag
                     (_generate_production_server_url (file content))
                     scripts_attrs)
      else polyfills_loop items' scripts_attrs
  end.

Definition generate_vite_legacy_polyfills (self : DjangoViteAssetLoader)
    (kwargs : dict string) : outcome string :=
  if DJANGO_VITE_DEV_MODE settings then Return EmptyString
  else
    let scripts_attrs :=
      dict_update [("nomodule", EmptyString); ("crossorigin", EmptyString)] kwargs in
    match _manifest self with
    | None => Raise AttributeError
    | Some m => polyfills_loop m scripts_attrs
    end.

Definition generate_vite_legacy_asset (self : DjangoViteAssetLoader)
    (path : string) (kwargs : dict string) : outcome string :=
  if DJANGO_VITE_DEV_MODE settings then Return EmptyString
  else if manifest_lacks self path then Raise (AssetNotFoundError path)
  else
    manifest_entry <- manifest_getitem self path ;;
    let scripts_attrs :=
      dict_update [("nomodule", EmptyString); ("crossorigin", EmptyString)] kwargs in
    Return (_generate_script_tag
              (_generate_production_server_url (file manifest_entry))
              scripts_attrs).

Definition generate_vite_ws_client (kwargs : dict string) : outcome string :=
  if negb (DJANGO_VITE_DEV_MODE settings) then Return EmptyString
  else
    url <- _generate_vite_server_url (DJANGO_VITE_WS_CLIENT_URL settings) ;;
    Return (_generate_script_tag url (dict_update [("type", "module")] kwargs)).

Definition indent12 : string := "            ".

Definition generate_vite_react_refresh_url : outcome string :=
  if negb (DJANGO_VITE_DEV_MODE settings) then Return EmptyString
  else
    url <- _generate_vite_server_url (DJANGO_VITE_REACT_REFRESH_URL settings) ;;
    Return
      ("<script type=" +:+ DQ +:+ "module" +:+ DQ +:+ ">" +:+ NL
       +:+ indent12 +:+ "import RefreshRuntime from "
       +:+ indent12 +:+ "'" +:+ url +:+ "'" +:+ NL
       +:+ indent12 +:+ "RefreshRuntime.injectIntoGlobalHook(window)" +:+ NL
       +:+ indent12 +:+ "window.$RefreshReg$ = () => {}" +:+ NL
       +:+ indent12 +:+ "window.$RefreshSig$ = () => (type) => type" +:+ NL
       +:+ indent12 +:+ "window.__vite_plugin_react_preamble_installed__ = true"
       +:+ NL +:+ "        </script>").

(** *** Construction: [_parse_manifest] and the singleton [instance] *)

(** [_parse_manifest] assigns [self._manifest] only once both the read and
    [json.loads] have answered; any exception of either is raised again as
    a [RuntimeError].  The second component is [self] after the call. *)
Definition _parse_manifest (self : DjangoViteAssetLoader)
  : outcome unit * DjangoViteAssetLoader :=
  match read_text host (DJANGO_VITE_MANIFEST_PATH settings) with
  | inr error => (Raise (ManifestLoadError error), self)
  | inl manifest_content =>
      match json_loads host manifest_content with
      | inr error => (Raise (ManifestLoadError error), self)
      | inl m => (Return tt, mkLoader (Some m))
      end
  end.

(** [instance], over the class attribute [cls._instance].  The new object is
    stored in [cls._instance] before [_parse_manifest] runs on it, so the
    class keeps the object whatever the parse answers. *)
Definition instance (cls_instance : option DjangoViteAssetLoader)
  : outcome DjangoViteAssetLoader * option DjangoViteAssetLoader :=
  match cls_instance with
  | Some self => (Return self, cls_instance)
  | None =>
      let self := mkLoader None in
      if negb (DJANGO_VITE_DEV_MODE settings) then
        let (r, self') := _parse_manifest self in
        (_ <- r ;; Return self', Some self')
      else (Return self, Some self)
  end.

(** *** The template tags ([mark_safe] leaves the text as it is) *)

Definition vite_hmr_client (kwargs : dict string)
    (cls_instance : option DjangoViteAssetLoader)
  : outcome string * option DjangoViteAssetLoader :=
  (generate_vite_ws_client kwargs, cls_instance).

Definition vite_asset (fuel : nat) (path : string) (kwargs : dict string)
    (cls_instance : option DjangoViteAssetLoader)
  : outcome string * option DjangoViteAssetLoader :=
  let (r, cls_instance') := instance cls_instance in
  (self <- r ;; generate_vite_asset self fuel path kwargs, cls_instance').

Definition vite_asset_url (path : string)
    (cls_instance : option DjangoViteAssetLoader)
  : outcome string * option DjangoViteAssetLoader :=
  let (r, cls_instance') := instance cls_instance in
  (self <- r ;; generate_vite_asset_url self path, cls_instance').

Definition vite_legacy_polyfills (kwargs : dict string)
    (cls_instance : option DjangoViteAssetLoader)
  : outcome string * option DjangoViteAssetLoader :=
  let (r, cls_instance') := instance cls_instance in
  (self <- r ;; generate_vite_legacy_polyfills self kwargs, cls_instance').

Definition vite_legacy_asset (path : string) (kwargs : dict string)
    (cls_instance : option DjangoViteAssetLoader)
  : outcome string * option DjangoViteAssetLoader :=
  let (r, cls_instance') := instance cls_instance in
  (self <- r ;; generate_vite_legacy_asset self path kwargs, cls_instance').

Definition vite_react_refresh (cls_instance : option DjangoViteAssetLoader)
  : outcome string * option DjangoViteAssetLoader :=
  (generate_vite_react_refresh_url, cls_instance).

(** ** The import graph of a manifest *)

(** An optional field read as a list: absent, it has nothing to loop over. *)
Definition opt_list (o : option (list string)) : list string :=
  match o with Some l => l | None => [] end.

(** The paths the entry under [path] imports; none when [path] is no key. *)
Definition imports_of (m : Manifest) (path : string) : list string :=
  match dict_get m path with
  | Some manifest_entry => opt_list (imports manifest_entry)
  | None => []
  end.

Definition imports_edge (m : Manifest) (p q : string) : Prop :=
  In q (imports_of m p).

Inductive reaches (m : Manifest) : string -> string -> Prop :=
| reaches_refl : forall p, reaches m p p
| reaches_step : forall p q r,
    imports_edge m p q -> reaches m q r -> reaches m p r.

(** [q] imports, in one step or more, itself. *)
Definition on_cycle (m : Manifest) (q : string) : Prop :=
  exists q', imports_edge m q q' /\ reaches m q' q.

Definition cycle_reachable (m : Manifest) (p : string) : Prop :=
  exists q, reaches m p q /\ on_cycle m q.

Definition acyclic (m : Manifest) : Prop := forall q, ~ on_cycle m q.

(** Some entry reachable from [p] names an import that is no key. *)
Definition dangling_reachable (m : Manifest) (p : string) : Prop :=
  exists q r, reaches m p q /\ imports_edge m q r /\ dict_in r m = false.

(** Every path imported, directly or not, from [p] is a key. *)
Definition imports_closed (m : Manifest) (p : string) : Prop :=
  forall q r, reaches m p q -> imports_edge m q r -> dict_in r m = true.

(** Every import named by an entry is a key. *)
Definition all_imports_keys (m : Manifest) : bool :=
  forallb (fun kv => forallb (fun q => dict_in q m) (opt_list (imports (snd kv))))
    m.

(** [rank] goes down along every import. *)
Definition ranked (rank : string -> nat) (m : Manifest) : bool :=
  forallb
    (fun kv => forallb (fun q => Nat.ltb (rank q) (rank (fst kv)))
                 (opt_list (imports (snd kv))))
    m.

(** A list of paths each of which imports the next. *)
Fixpoint is_chain (m : Manifest) (nodes : list string) : Prop :=
  match nodes with
  | x :: (y :: _) as tl => imports_edge m x y /\ is_chain m tl
  | _ => True
  end.

(** The CSS paths of [l] that [css_loop] turns into a tag, given the paths
    already processed. *)
Fixpoint css_new (l already_processed : list string) : list string :=
  match l with
  | [] => []
  | css_path :: l' =>
      (if negb (list_in css_path already_processed) then [css_path] else [])
      ++ css_new l' (already_processed ++ [css_path])
  end.

(** One run of the imports loop: the tags each import contributes, in the
    order of the list, and the processed paths handed from one to the next. *)
Inductive imports_run (rec : string -> list string -> outcome (list string * list string))
  : list string -> list string -> list (list string) -> list string -> Prop :=
| run_nil : forall ap, imports_run rec [] ap [] ap
| run_cons : forall q l ap t ap1 ts ap2,
    rec q ap = Return (t, ap1) ->
    imports_run rec l ap1 ts ap2 ->
    imports_run rec (q :: l) ap (t :: ts) ap2.

(** What one stretch of the walk does to the processed paths: the paths
    [new] it turned into tags are pairwise different, none of them had been
    processed before, all of them are processed afterwards, and nothing
    processed before is forgotten. *)
Definition fresh_run (ap new ap' : list string) : Prop :=
  NoDup new
  /\ (forall c, In c new -> ~ In c ap)
  /\ incl new ap'
  /\ incl ap ap'.

(** Running a tag twice from the same class state: the two answers. *)
Definition twice {A S : Type} (op : S -> A * S) (s : S) : A * A :=
  let (r1, s1) := op s in
  let (r2, _) := op s1 in
  (r1, r2).

(** The CSS paths the entry under [path] lists; none when [path] is no
    key. *)
Definition css_of (m : Manifest) (path : string) : list string :=
  match dict_get m path with
  | Some manifest_entry => opt_list (css manifest_entry)
  | None => []
  end.

(** The CSS paths of the imports of an entry, import after import, over the
    traversal [rec] of one import. *)
Fixpoint visited_loop (rec : string -> outcome (list string)) (l : list string)
  : outcome (list string) :=
  match l with
  | [] => Return []
  | import_path :: l' =>
      s1 <- rec import_path ;;
      s2 <- visited_loop rec l' ;;
      Return (s1 ++ s2)
  end.

(** The CSS paths the walk meets from [path], in the order it meets them,
    repetitions included: those of the imports first, the entry's own after.
    No list of processed paths takes part in it. *)
Fixpoint visited_css (fuel : nat) (m : Manifest) (path : string)
  : outcome (list string) :=
  match fuel with
  | O => OutOfFuel
  | S fuel' =>
      match dict_get m path with
      | None => Raise (KeyError path)
      | Some manifest_entry =>
          s <- visited_loop (visited_css fuel' m)
                 (opt_list (imports manifest_entry)) ;;
          Return (s ++ opt_list (css manifest_entry))
      end
  end.

(** *** The list objects of a call, kept in a store *)

(** Python lists are objects: [tags] and [already_processed] are made by
    [[]], changed in place by [append] and [extend], and passed by
    reference.  The store holds the list objects made so far, in the order
    they were made; a reference is the rank of its object. *)
Definition heap : Type := list (list string).

(** [[]], or any new list: the new reference and the store with it. *)
Definition h_alloc (v : list string) (h : heap) : nat * heap :=
  (length h, h ++ [v]).

Definition h_read (r : nat) (h : heap) : list string := nth r h [].

Fixpoint h_write (r : nat) (v : list string) (h : heap) {struct h} : heap :=
  match h, r with
  | [], _ => []
  | _ :: h', O => v :: h'
  | x :: h', S r' => x :: h_write r' v h'
  end.

(** [l.extend(items)]; [l.append(x)] is [l.extend([x])]. *)
Definition h_extend (r : nat) (items : list string) (h : heap) : heap :=
  h_write r (h_read r h ++ items) h.

(** The imports loop on list objects: [tags] and [already_processed] are
    references, the recursive call hands back the reference of its own
    [tags]. *)
Fixpoint imports_loop_st (rec : string -> nat -> heap -> outcome nat * heap)
    (l : list string) (tags already_processed : nat) (h : heap)
  : outcome unit * heap :=
  match l with
  | [] => (Return tt, h)
  | import_path :: l' =>
      match rec import_path already_processed h with
      | (Return t, h1) =>
          imports_loop_st rec l' tags already_processed
            (h_extend tags (h_read t h1) h1)
      | (Raise e, h1) => (Raise e, h1)
      | (OutOfFuel, h1) => (OutOfFuel, h1)
      end
  end.

(** The CSS loop on list objects. *)
Fixpoint css_loop_st (tag : string -> string) (l : list string)
    (tags already_processed : nat) (h : heap) : heap :=
  match l with
  | [] => h
  | css_path :: l' =>
      let h1 :=
        if negb (list_in css_path (h_read already_processed h))
        then h_extend tags [tag css_path] h else h in
      css_loop_st tag l' tags already_processed
        (h_extend already_processed [css_path] h1)
  end.

(** What a call may and may not have done to the store [h] it started
    from: it made new objects, and among the old ones changed at most the
    one under [ap]. *)
Definition heap_frame (ap : nat) (h h' : heap) : Prop :=
  length h <= length h'
  /\ forall r, r < length h -> r <> ap -> h_read r h' = h_read r h.

(** The walk on list objects does what the walk on list values says. *)
Definition walk_refines
    (rec_st : string -> nat -> heap -> outcome nat * heap)
    (rec : string -> list string -> outcome (list string * list string))
  : Prop :=
  forall q ap h,
    ap < length h ->
    exists h',
      heap_frame ap h h'
      /\ match rec q (h_read ap h) with
         | Return (tv, apv) =>
             exists t,
               rec_st q ap h = (Return t, h')
               /\ length h <= t /\ t < length h'
               /\ h_read t h' = tv /\ h_read ap h' = apv
         | Raise e => rec_st q ap h = (Raise e, h')
         | OutOfFuel => rec_st q ap h = (OutOfFuel, h')
         end.

(** The state of the process between two calls: the class attribute
    [_instance] and the list objects made so far. *)
Record world : Type := mkWorld {
  w_instance : option DjangoViteAssetLoader;
  w_lists : heap
}.

(** A tag that makes no list object of its own, run in a world. *)
Definition in_world
    (op : option DjangoViteAssetLoader
          -> outcome string * option DjangoViteAssetLoader)
    (w : world) : outcome string * world :=
  let (r, cls_instance') := op (w_instance w) in
  (r, mkWorld cls_instance' (w_lists w)).

(** [_generate_css_files_of_asset] on list objects: [tags = []] makes a new
    object, [already_processed] is the reference the caller passed. *)
Fixpoint _generate_css_files_of_asset_st (fuel : nat)
    (self : DjangoViteAssetLoader) (path : string) (already_processed : nat)
    (h : heap) : outcome nat * heap :=
  match fuel with
  | O => (OutOfFuel, h)
  | S fuel' =>
      let (tags, h) := h_alloc [] h in
      match manifest_getitem self path with
      | Return manifest_entry =>
          let (r, h) :=
            match imports manifest_entry with
            | Some l =>
                imports_loop_st (_generate_css_files_of_asset_st fuel' self) l
                  tags already_processed h
            | None => (Return tt, h)
            end in
          match r with
          | Return _ =>
              (Return tags,
               match css manifest_entry with
               | Some l => css_loop_st css_tag l tags already_processed h
               | None => h
               end)
          | Raise e => (Raise e, h)
          | OutOfFuel => (OutOfFuel, h)
          end
      | Raise e => (Raise e, h)
      | OutOfFuel => (OutOfFuel, h)
      end
  end.

(** [generate_vite_asset] on list objects: its own [tags = []], and the
    [[]] it passes to the walk, are new objects of each call. *)
Definition generate_vite_asset_st (self : DjangoViteAssetLoader) (fuel : nat)
    (path : string) (kwargs : dict string) (h : heap) : outcome string * heap :=
  if DJANGO_VITE_DEV_MODE settings then
    (url <- _generate_vite_server_url path ;;
     Return (_generate_script_tag url (dict_update [("type", "module")] kwargs)),
     h)
  else if manifest_lacks self path then (Raise (AssetNotFoundError path), h)
  else
    let (tags, h) := h_alloc [] h in
    match manifest_getitem self path with
    | Return manifest_entry =>
        let scripts_attrs :=
          dict_update [("type", "module"); ("crossorigin", EmptyString)] kwargs in
        let (already_processed, h) := h_alloc [] h in
        match _generate_css_files_of_asset_st fuel self path already_processed h with
        | (Return t, h) =>
            let h := h_extend tags (h_read t h) h in
            let h :=
              h_extend tags
                [_generate_script_tag
                   (_generate_production_server_url (file manifest_entry))
                   scripts_attrs] h in
            (Return (join NL (h_read tags h)), h)
        | (Raise e, h) => (Raise e, h)
        | (OutOfFuel, h) => (OutOfFuel, h)
        end
    | Raise e => (Raise e, h)
    | OutOfFuel => (OutOfFuel, h)
    end.

(** The tag [vite_asset] in a world. *)
Definition vite_asset_st (fuel : nat) (path : string) (kwargs : dict string)
    (w : world) : outcome string * world :=
  let (r, cls_instance') := instance (w_instance w) in
  match r with
  | Return self =>
      let (out, h) := generate_vite_asset_st self fuel path kwargs (w_lists w) in
      (out, mkWorld cls_instance' h)
  | Raise e => (Raise e, mkWorld cls_instance' (w_lists w))
  | OutOfFuel => (OutOfFuel, mkWorld cls_instance' (w_lists w))
  end.

(** [ldr m] is the loader that holds the manifest [m]. *)
Local Notation "'ldr' m" := (mkLoader (Some m)) (at level 10, m at level 9).

(** ** Python values: lemmas *)

Lemma dict_in_iff_keys {V : Type} (d : dict V) (k : string) :
  dict_in k d = true <-> In k (dict_keys d).
Proof.
  unfold dict_in. induction d as [|[k' v] d IH]; simpl.
  - split; [discriminate | tauto].
  - destruct (String.eqb_spec k' k) as [->|Hne].
    + split; auto.
    + rewrite IH. split; [auto | intros [H|H]; [congruence | exact H]].
Qed.

Lemma dict_get_set_same {V : Type} (d : dict V) (k : string) (v : V) :
  dict_get (dict_set d k v) k = Some v.
Proof.
  induction d as [|[k' v'] d IH]; simpl.
  - now rewrite String.eqb_refl.
  - destruct (String.eqb_spec k' k) as [->|Hne]; simpl.
    + now rewrite String.eqb_refl.
    + destruct (String.eqb_spec k' k); [congruence | exact IH].
Qed.

Lemma dict_get_set_other {V : Type} (d : dict V) (k k0 : string) (v : V) :
  k <> k0 -> dict_get (dict_set d k v) k0 = dict_get d k0.
Proof.
  intros Hne. induction d as [|[k' v'] d IH]; simpl.
  - destruct (String.eqb_spec k k0); [congruence | reflexivity].
  - destruct (String.eqb_spec k' k) as [->|Hk]; simpl.
    + destruct (String.eqb_spec k k0); [congruence | reflexivity].
    + now rewrite IH.
Qed.

(** The keys of [d] keep their places when [d] is updated. *)
Lemma dict_set_keys {V : Type} (d : dict V) (k : string) (v : V) :
  dict_keys (dict_set d k v)
  = if dict_in k d then dict_keys d else dict_keys d ++ [k].
Proof.
  unfold dict_in. induction d as [|[k' v'] d IH]; simpl; [reflexivity|].
  destruct (String.eqb_spec k' k) as [->|Hk]; simpl; [reflexivity|].
  rewrite IH. now destruct (dict_get d k).
Qed.

(** Reading a merged dict: the caller's value where the caller gave one,
    the default otherwise. *)
Lemma dict_get_update {V : Type} (kw d : dict V) (k : string) :
  is_dict kw ->
  dict_get (dict_update d kw) k
  = match dict_get kw k with Some v => Some v | None => dict_get d k end.
Proof.
  unfold dict_update, is_dict. revert d.
  induction kw as [|[k' v'] kw IH]; intros d Hnd; simpl; [reflexivity|].
  simpl in Hnd. inversion Hnd as [|? ? Hnotin Hnd']; subst.
  rewrite (IH _ Hnd').
  destruct (String.eqb_spec k' k) as [->|Hk].
  - assert (Hnone : dict_get kw k = None).
    { destruct (dict_get kw k) eqn:E; [|reflexivity].
      exfalso. apply Hnotin. apply dict_in_iff_keys. unfold dict_in.
      now rewrite E. }
    rewrite Hnone. apply dict_get_set_same.
  - destruct (dict_get kw k); [reflexivity|].
    now apply dict_get_set_other.
Qed.

Lemma list_in_iff (x : string) (l : list string) :
  list_in x l = true <-> In x l.
Proof.
  unfold list_in. rewrite existsb_exists. split.
  - intros (y & Hy & Heq). apply String.eqb_eq in Heq. now subst.
  - intros H. exists x. split; [exact H | apply String.eqb_refl].
Qed.

Lemma list_in_false_iff (x : string) (l : list string) :
  list_in x l = false <-> ~ In x l.
Proof.
  rewrite <- list_in_iff. destruct (list_in x l); split; congruence.
Qed.

Lemma prefix_iff (m s : string) :
  String.prefix m s = true <-> exists post, s = m +:+ post.
Proof.
  revert s. induction m as [|c m IH]; intros s.
  - split; [intros _; now exists s | intros _; now destruct s].
  - destruct s as [|c' s]; simpl.
    + split; [discriminate | intros [? H]; discriminate].
    + destruct (Ascii.ascii_dec c c') as [->|Hne].
      * specialize (IH s). destruct IH as [IH1 IH2]. split.
        -- intros H. destruct (IH1 H) as [post ->]. now exists post.
        -- intros [post H]. apply IH2. exists post. congruence.
      * split; [discriminate | intros [post H]; congruence].
Qed.

(** [str_contains] is Python's [in] on strings: [motif] occurs in [s]. *)
Lemma str_contains_iff (motif s : string) :
  str_contains motif s = true <-> exists pre post, s = pre +:+ motif +:+ post.
Proof.
  induction s as [|c s IH].
  - cbn [str_contains]. rewrite orb_false_r, prefix_iff. split.
    + intros [post H]. now exists EmptyString, post.
    + intros ([|? ?] & post & H); simpl in H; [now exists post | discriminate].
  - cbn [str_contains]. rewrite orb_true_iff, prefix_iff, IH. split.
    + intros [[post H]|(pre & post & H)].
      * now exists EmptyString, post.
      * exists (String c pre), post. simpl. now rewrite H.
    + intros ([|c' pre] & post & H); simpl in H.
      * left. now exists post.
      * right. exists pre, post. congruence.
Qed.

(** ** The loops of the walk *)

Lemma css_new_spec (l ap : list string) :
  NoDup (css_new l ap)
  /\ forall c, In c (css_new l ap) -> In c l /\ ~ In c ap.
Proof.
  revert ap. induction l as [|c0 l IH]; intros ap; simpl.
  - split; [constructor | tauto].
  - destruct (IH (ap ++ [c0])) as [Hnd Hin].
    assert (Htail : forall c, In c (css_new l (ap ++ [c0])) ->
                              In c l /\ ~ In c ap /\ c <> c0).
    { intros c Hc. destruct (Hin c Hc) as [H1 H2]. split; [exact H1|].
      split; intros H; apply H2; apply in_or_app; [now left|].
      right. simpl. auto. }
    destruct (list_in c0 ap) eqn:E; simpl.
    + split; [exact Hnd|]. intros c Hc.
      destruct (Htail c Hc) as (H1 & H2 & _). auto.
    + apply list_in_false_iff in E. split.
      * constructor; [|exact Hnd]. intros Hc.
        destruct (Htail c0 Hc) as (_ & _ & H3). now apply H3.
      * intros c [<-|Hc]; [auto|].
        destruct (Htail c Hc) as (H1 & H2 & _). auto.
Qed.

(** What the CSS loop leaves: the tags of the new paths after the tags it
    started with, and every path of the entry among the processed ones. *)
Lemma css_loop_eq (tag : string -> string) (l tags ap : list string) :
  css_loop tag l tags ap = (tags ++ map tag (css_new l ap), ap ++ l).
Proof.
  revert tags ap. induction l as [|c l IH]; intros tags ap; simpl.
  - now rewrite !app_nil_r.
  - rewrite IH, <- app_assoc. simpl.
    destruct (negb (list_in c ap)); simpl; [|reflexivity].
    now rewrite <- app_assoc.
Qed.

Section ImportsLoop.

Variable rec : string -> list string -> outcome (list string * list string).

Lemma imports_loop_run (l tags ap tags' ap' : list string) :
  imports_loop rec l tags ap = Return (tags', ap')
  <-> exists ts, imports_run rec l ap ts ap' /\ tags' = tags ++ concat ts.
Proof.
  revert tags ap. induction l as [|q l IH]; intros tags ap; simpl.
  - split.
    + intros H. inversion H; subst. exists []. split; [constructor|].
      simpl. now rewrite app_nil_r.
    + intros (ts & Hrun & ->). inversion Hrun; subst. simpl.
      now rewrite app_nil_r.
  - split.
    + destruct (rec q ap) as [[t ap1]| |] eqn:E; simpl; try discriminate.
      intros H. apply IH in H. destruct H as (ts & Hrun & ->).
      exists (t :: ts). split; [econstructor; eauto|].
      simpl. now rewrite app_assoc.
    + intros (ts & Hrun & ->). inversion Hrun; subst.
      match goal with H : rec q ap = _ |- _ => rewrite H end. simpl.
      apply IH. eexists. split; [eassumption|]. simpl. now rewrite app_assoc.
Qed.

(** The loop runs out of fuel only where one of its calls does. *)
Lemma imports_loop_out_of_fuel (l tags ap : list string) :
  imports_loop rec l tags ap = OutOfFuel ->
  exists q ap1, In q l /\ rec q ap1 = OutOfFuel.
Proof.
  revert tags ap. induction l as [|q l IH]; intros tags ap; simpl.
  - discriminate.
  - destruct (rec q ap) as [[t ap1]| |] eqn:E; simpl.
    + intros H. destruct (IH _ _ H) as (q' & ap' & Hin & Hq').
      exists q', ap'. auto.
    + discriminate.
    + intros _. exists q, ap. auto.
Qed.

(** The loop raises only what one of its calls raises. *)
Lemma imports_loop_raise (l tags ap : list string) (e : exn) :
  imports_loop rec l tags ap = Raise e ->
  exists q ap1, In q l /\ rec q ap1 = Raise e.
Proof.
  revert tags ap. induction l as [|q l IH]; intros tags ap; simpl.
  - discriminate.
  - destruct (rec q ap) as [[t ap1]| |] eqn:E; simpl.
    + intros H. destruct (IH _ _ H) as (q' & ap' & Hin & Hq').
      exists q', ap'. auto.
    + intros H. inversion H; subst. exists q, ap. auto.
    + discriminate.
Qed.

(** The loop returns only when each of its calls does. *)
Lemma imports_run_each (l ap : list string) (ts : list (list string))
    (ap' : list string) :
  imports_run rec l ap ts ap' ->
  forall q, In q l -> exists ap1 r, rec q ap1 = Return r.
Proof.
  induction 1 as [|q0 l ap t ap1 ts ap2 Hq _ IH]; intros q Hin.
  - destruct Hin.
  - destruct Hin as [<-|Hin]; [eauto | now apply IH].
Qed.

End ImportsLoop.

(** More fuel changes no answer other than [OutOfFuel]. *)
Lemma imports_loop_mono
    (rec1 rec2 : string -> list string -> outcome (list string * list string)) :
  (forall q ap r, rec1 q ap = r -> r <> OutOfFuel -> rec2 q ap = r) ->
  forall l tags ap r,
    imports_loop rec1 l tags ap = r -> r <> OutOfFuel ->
    imports_loop rec2 l tags ap = r.
Proof.
  intros Hrec l. induction l as [|q l IH]; intros tags ap r; simpl.
  - auto.
  - destruct (rec1 q ap) as [[t ap1]| |] eqn:E; simpl; intros Hr Hne.
    + rewrite (Hrec _ _ _ E) by discriminate. simpl. now apply IH.
    + rewrite (Hrec _ _ _ E) by discriminate. exact Hr.
    + congruence.
Qed.

(** ** The walk: unfolding, fuel *)

Lemma walk_step (n : nat) (self : DjangoViteAssetLoader) (p : string)
    (ap : list string) :
  _generate_css_files_of_asset (S n) self p ap
  = (manifest_entry <- manifest_getitem self p ;;
     r <- match imports manifest_entry with
          | Some l =>
              imports_loop (_generate_css_files_of_asset n self) l [] ap
          | None => Return ([], ap)
          end ;;
     Return
       match css manifest_entry with
       | Some l => css_loop css_tag l (fst r) (snd r)
       | None => r
       end).
Proof. reflexivity. Qed.

Lemma walk_unfold (n : nat) (m : Manifest) (p : string) (ap : list string) :
  _generate_css_files_of_asset (S n) (ldr m) p ap
  = match dict_get m p with
    | None => Raise (KeyError p)
    | Some manifest_entry =>
        r <- imports_loop (_generate_css_files_of_asset n (ldr m))
               (opt_list (imports manifest_entry)) [] ap ;;
        Return (css_loop css_tag (opt_list (css manifest_entry)) (fst r) (snd r))
    end.
Proof.
  rewrite walk_step. unfold manifest_getitem. simpl.
  destruct (dict_get m p) as [e|]; simpl; [|reflexivity].
  destruct (imports e) as [l|]; simpl.
  - destruct (imports_loop _ l [] ap) as [[t ap1]| |]; simpl; try reflexivity.
    now destruct (css e).
  - now destruct (css e).
Qed.

Lemma walk_mono_S (n : nat) (self : DjangoViteAssetLoader) :
  forall p ap r,
    _generate_css_files_of_asset n self p ap = r -> r <> OutOfFuel ->
    _generate_css_files_of_asset (S n) self p ap = r.
Proof.
  induction n as [|n IH]; intros p ap r Hr Hne.
  - simpl in Hr. congruence.
  - rewrite walk_step in Hr. rewrite walk_step.
    destruct (manifest_getitem self p) as [e| |]; simpl in *; auto.
    destruct (imports e) as [l|]; auto.
    destruct (imports_loop (_generate_css_files_of_asset n self) l [] ap)
      as [x| |] eqn:E; simpl in Hr.
    + rewrite (imports_loop_mono _ _ IH _ _ _ _ E) by discriminate. exact Hr.
    + rewrite (imports_loop_mono _ _ IH _ _ _ _ E) by discriminate. exact Hr.
    + congruence.
Qed.

Lemma walk_mono (n n' : nat) (self : DjangoViteAssetLoader)
    (p : string) (ap : list string) (r : outcome (list string * list string)) :
  n <= n' ->
  _generate_css_files_of_asset n self p ap = r -> r <> OutOfFuel ->
  _generate_css_files_of_asset n' self p ap = r.
Proof.
  induction 1 as [|n' _ IH]; intros Hr Hne; [exact Hr|].
  apply walk_mono_S; auto.
Qed.

(** ** The import graph: lemmas *)

Lemma reaches_trans (m : Manifest) (p q r : string) :
  reaches m p q -> reaches m q r -> reaches m p r.
Proof.
  induction 1 as [|p q0 q Hedge _ IH]; intros Hqr; [exact Hqr|].
  eapply reaches_step; eauto.
Qed.

Lemma reaches_snoc (m : Manifest) (p q r : string) :
  reaches m p q -> imports_edge m q r -> reaches m p r.
Proof.
  intros Hpq Hqr. eapply reaches_trans; [exact Hpq|].
  eapply reaches_step; [exact Hqr | constructor].
Qed.

Lemma imports_edge_key (m : Manifest) (p q : string) :
  imports_edge m p q -> dict_in p m = true.
Proof.
  unfold imports_edge, imports_of, dict_in.
  destruct (dict_get m p); [reflexivity | intros []].
Qed.

Lemma chain_suffix (m : Manifest) (l1 l2 : list string) :
  is_chain m (l1 ++ l2) -> is_chain m l2.
Proof.
  induction l1 as [|x l1 IH]; [auto|].
  destruct l1 as [|y l1]; simpl in *.
  - destruct l2; tauto.
  - intros [_ H]. now apply IH.
Qed.

Lemma chain_reaches (m : Manifest) (l : list string) :
  forall x, is_chain m (x :: l) -> forall y, In y (x :: l) -> reaches m x y.
Proof.
  induction l as [|x' l IH]; intros x Hch y Hin.
  - destruct Hin as [<-|[]]. constructor.
  - destruct Hin as [<-|Hin]; [constructor|].
    destruct Hch as [Hedge Hch].
    eapply reaches_step; [exact Hedge | now apply IH].
Qed.

Lemma chain_cycle (m : Manifest) (a : string) (l2 l3 : list string) :
  is_chain m (a :: l2 ++ a :: l3) -> on_cycle m a.
Proof.
  intros Hch.
  destruct (l2 ++ a :: l3) as [|y tl] eqn:E.
  - destruct l2; discriminate.
  - destruct Hch as [Hedge Hch]. exists y. split; [exact Hedge|].
    apply (chain_reaches m tl y Hch).
    rewrite <- E. apply in_or_app. right. now left.
Qed.

(** A chain longer than the manifest has keys comes back to one of its
    paths. *)
Lemma long_chain_cycle (m : Manifest) (p : string) (l : list string) :
  is_chain m (p :: l) ->
  Forall (fun x => dict_in x m = true) (p :: l) ->
  length m < length (p :: l) ->
  cycle_reachable m p.
Proof.
  intros Hch Hkeys Hlen.
  assert (Hdup : ~ NoDup (p :: l)).
  { intros Hnd.
    assert (Hincl : incl (p :: l) (dict_keys m)).
    { intros x Hx. apply dict_in_iff_keys.
      rewrite Forall_forall in Hkeys. now apply Hkeys. }
    pose proof (NoDup_incl_length Hnd Hincl) as Hle.
    unfold dict_keys in Hle. rewrite length_map in Hle. lia. }
  apply not_NoDup in Hdup.
  2:{ intros x y. destruct (string_dec x y); [now left | now right]. }
  destruct Hdup as (a & l1 & l2 & l3 & E).
  exists a. split.
  - apply (chain_reaches m l p Hch). rewrite E.
    apply in_or_app. right. now left.
  - apply chain_cycle with (l2 := l2) (l3 := l3).
    apply chain_suffix with (l1 := l1). now rewrite <- E.
Qed.

(** ** The walk over the import graph *)

(** A walk that runs out of fuel went down a chain of imports as long as
    its fuel, through keys of the manifest only. *)
Lemma walk_out_of_fuel_chain (m : Manifest) (n : nat) :
  forall p ap,
    _generate_css_files_of_asset (S n) (ldr m) p ap = OutOfFuel ->
    exists l, length l = n /\ is_chain m (p :: l)
              /\ Forall (fun x => dict_in x m = true) (p :: l).
Proof.
  induction n as [|n IH]; intros p ap; rewrite walk_unfold;
    destruct (dict_get m p) as [e|] eqn:E; try discriminate;
    assert (Hp : dict_in p m = true) by (unfold dict_in; now rewrite E).
  - intros _. exists []. simpl. repeat split; auto.
  - destruct (imports_loop _ (opt_list (imports e)) [] ap) as [x| |] eqn:El;
      simpl; try discriminate.
    intros _. apply imports_loop_out_of_fuel in El.
    destruct El as (q & ap1 & Hin & Hq).
    destruct (IH _ _ Hq) as (l & Hlen & Hch & Hkeys).
    exists (q :: l). simpl. repeat split; auto.
    unfold imports_edge, imports_of. now rewrite E.
Qed.

(** Termination: where no cycle can be reached, a fuel of one more than the
    number of entries is enough. *)
Lemma walk_terminates (m : Manifest) (p : string) (ap : list string) :
  ~ cycle_reachable m p ->
  _generate_css_files_of_asset (S (length m)) (ldr m) p ap <> OutOfFuel.
Proof.
  intros Hacyc Hoof.
  destruct (walk_out_of_fuel_chain _ _ _ _ Hoof) as (l & Hlen & Hch & Hkeys).
  apply Hacyc. apply (long_chain_cycle m p l); auto. simpl. lia.
Qed.

(** The walk raises nothing but the [KeyError] of a path that is no key:
    the path it was called on, or an import of an entry it reached. *)
Lemma walk_raise (m : Manifest) (n : nat) :
  forall p ap e,
    _generate_css_files_of_asset n (ldr m) p ap = Raise e ->
    exists r, e = KeyError r /\ dict_in r m = false
              /\ (r = p \/ exists q, reaches m p q /\ imports_edge m q r).
Proof.
  induction n as [|n IH]; intros p ap e; [discriminate|].
  rewrite walk_unfold. destruct (dict_get m p) as [e0|] eqn:E.
  - destruct (imports_loop _ (opt_list (imports e0)) [] ap) as [x| |] eqn:El;
      simpl; try discriminate.
    intros H. inversion H; subst. apply imports_loop_raise in El.
    destruct El as (q & ap1 & Hin & Hq).
    assert (Hedge : imports_edge m p q)
      by (unfold imports_edge, imports_of; now rewrite E).
    destruct (IH _ _ _ Hq) as (r & -> & Hr & [->|(q' & Hreach & Hqr)]).
    + exists q. repeat split; auto. right. exists p. split; [constructor|auto].
    + exists r. repeat split; auto. right. exists q'. split; [|auto].
      eapply reaches_step; eauto.
  - intros H. inversion H; subst. exists p. repeat split; auto.
    unfold dict_in. now rewrite E.
Qed.

(** A walk that returns was called on a key, and its calls on the imports
    of that entry returned with the fuel that was left. *)
Lemma walk_return_inv (m : Manifest) (n : nat) (p : string)
    (ap : list string) (x : list string * list string) :
  _generate_css_files_of_asset n (ldr m) p ap = Return x ->
  dict_in p m = true
  /\ exists n0, n = S n0
     /\ forall q, imports_edge m p q ->
          exists ap1 r, _generate_css_files_of_asset n0 (ldr m) q ap1 = Return r.
Proof.
  destruct n as [|n]; [discriminate|].
  rewrite walk_unfold. destruct (dict_get m p) as [e|] eqn:E; [|discriminate].
  destruct (imports_loop _ (opt_list (imports e)) [] ap) as [[t ap1]| |] eqn:El;
    simpl; try discriminate.
  intros _. split; [unfold dict_in; now rewrite E|].
  exists n. split; [reflexivity|]. intros q Hq.
  apply imports_loop_run in El. destruct El as (ts & Hrun & _).
  apply (imports_run_each _ _ _ _ _ Hrun).
  unfold imports_edge, imports_of in Hq. now rewrite E in Hq.
Qed.

Lemma walk_return_reaches (m : Manifest) (p q : string) :
  reaches m p q ->
  forall n ap x,
    _generate_css_files_of_asset n (ldr m) p ap = Return x ->
    exists n' ap' x',
      n' <= n /\ _generate_css_files_of_asset n' (ldr m) q ap' = Return x'.
Proof.
  induction 1 as [p|p q0 q Hedge _ IH]; intros n ap x Hret.
  - exists n, ap, x. auto.
  - destruct (walk_return_inv _ _ _ _ _ Hret) as (_ & n0 & -> & Hacc).
    destruct (Hacc _ Hedge) as (ap1 & r & Hq0).
    destruct (IH _ _ _ Hq0) as (n' & ap' & x' & Hle & Hq).
    exists n', ap', x'. split; [lia | exact Hq].
Qed.

(** On a cycle the walk never returns, whatever the fuel. *)
Lemma walk_cycle_no_return (m : Manifest) (p : string) :
  cycle_reachable m p ->
  forall n ap x, _generate_css_files_of_asset n (ldr m) p ap <> Return x.
Proof.
  intros (q & Hpq & q' & Hedge & Hback) n ap x Hret.
  destruct (walk_return_reaches _ _ _ Hpq _ _ _ Hret) as (k & apq & xq & _ & Hq).
  clear Hret Hpq. revert apq xq Hq.
  induction k as [k IHk] using lt_wf_ind. intros apq xq Hq.
  destruct (walk_return_inv _ _ _ _ _ Hq) as (_ & k0 & -> & Hacc).
  destruct (Hacc _ Hedge) as (ap1 & r & Hq').
  destruct (walk_return_reaches _ _ _ Hback _ _ _ Hq') as (k' & ap2 & x2 & Hle & Hq2).
  apply (IHk k' ltac:(lia) _ _ Hq2).
Qed.

(** With an import that is no key in reach, the walk never returns. *)
Lemma walk_dangling_no_return (m : Manifest) (p : string) :
  dangling_reachable m p ->
  forall n ap x, _generate_css_files_of_asset n (ldr m) p ap <> Return x.
Proof.
  intros (q & r & Hpq & Hedge & Hr) n ap x Hret.
  destruct (walk_return_reaches _ _ _ Hpq _ _ _ Hret) as (k & apq & xq & _ & Hq).
  destruct (walk_return_inv _ _ _ _ _ Hq) as (_ & k0 & -> & Hacc).
  destruct (Hacc _ Hedge) as (ap1 & x1 & Hr1).
  destruct (walk_return_inv _ _ _ _ _ Hr1) as (Hkey & _). congruence.
Qed.

(** With every import in reach a key, the walk raises nothing. *)
Lemma walk_closed_no_raise (m : Manifest) (p : string) :
  dict_in p m = true -> imports_closed m p ->
  forall n ap e, _generate_css_files_of_asset n (ldr m) p ap <> Raise e.
Proof.
  intros Hp Hclosed n ap e Hraise.
  destruct (walk_raise _ _ _ _ _ Hraise) as (r & _ & Hr & [->|(q & Hpq & Hqr)]).
  - congruence.
  - rewrite (Hclosed _ _ Hpq Hqr) in Hr. discriminate.
Qed.

(** ** The processed paths along the walk *)

Lemma fresh_run_nil (ap : list string) : fresh_run ap [] ap.
Proof.
  unfold fresh_run. repeat split; [constructor | | |]; auto using incl_refl.
  intros c [].
Qed.

Lemma fresh_run_app (ap new1 ap1 new2 ap2 : list string) :
  fresh_run ap new1 ap1 -> fresh_run ap1 new2 ap2 ->
  fresh_run ap (new1 ++ new2) ap2.
Proof.
  intros (Hnd1 & Hf1 & Hin1 & Hap1) (Hnd2 & Hf2 & Hin2 & Hap2).
  unfold fresh_run. repeat split.
  - clear Hf1 Hin2 Hap2 Hap1. induction new1 as [|c new1 IH]; [exact Hnd2|].
    simpl. inversion Hnd1; subst. constructor.
    + intros Hc. apply in_app_or in Hc. destruct Hc as [Hc|Hc]; [auto|].
      apply (Hf2 c Hc). apply Hin1. now left.
    + apply IH; auto. intros x Hx. apply Hin1. now right.
  - intros c Hc Hap. apply in_app_or in Hc. destruct Hc as [Hc|Hc].
    + now apply (Hf1 c).
    + apply (Hf2 c Hc). now apply Hap1.
  - intros c Hc. apply in_app_or in Hc. destruct Hc as [Hc|Hc]; auto.
  - intros c Hc. auto.
Qed.

Lemma fresh_run_css (l ap : list string) :
  fresh_run ap (css_new l ap) (ap ++ l).
Proof.
  destruct (css_new_spec l ap) as [Hnd Hin].
  unfold fresh_run. repeat split; auto.
  - intros c Hc. now apply Hin.
  - intros c Hc. apply in_or_app. right. now apply Hin.
  - intros c Hc. apply in_or_app. now left.
Qed.

Lemma imports_run_fresh
    (rec : string -> list string -> outcome (list string * list string)) :
  (forall q ap t ap', rec q ap = Return (t, ap') ->
     exists new, t = map css_tag new /\ fresh_run ap new ap') ->
  forall l ap ts ap',
    imports_run rec l ap ts ap' ->
    exists new, concat ts = map css_tag new /\ fresh_run ap new ap'.
Proof.
  intros Hrec l ap ts ap' Hrun.
  induction Hrun as [ap|q l ap t ap1 ts ap2 Hq _ IH].
  - exists []. split; [reflexivity | apply fresh_run_nil].
  - destruct (Hrec _ _ _ _ Hq) as (new1 & -> & Hf1).
    destruct IH as (new2 & E & Hf2).
    exists (new1 ++ new2). simpl. rewrite E, map_app.
    split; [reflexivity | eapply fresh_run_app; eauto].
Qed.

(** The tags a walk returns are the tags of pairwise different CSS paths,
    none of which had been processed when the walk started. *)
Lemma walk_emits (m : Manifest) (n : nat) :
  forall p ap tags ap',
    _generate_css_files_of_asset n (ldr m) p ap = Return (tags, ap') ->
    exists new, tags = map css_tag new /\ fresh_run ap new ap'.
Proof.
  induction n as [|n IH]; intros p ap tags ap'; [discriminate|].
  rewrite walk_unfold. destruct (dict_get m p) as [e|]; [|discriminate].
  destruct (imports_loop _ (opt_list (imports e)) [] ap) as [[t ap1]| |] eqn:El;
    simpl; try discriminate.
  rewrite css_loop_eq. intros H. inversion H; subst. clear H.
  apply imports_loop_run in El. destruct El as (ts & Hrun & ->).
  destruct (imports_run_fresh _ IH _ _ _ _ Hrun) as (new1 & E & Hf1).
  exists (new1 ++ css_new (opt_list (css e)) ap1).
  simpl. rewrite E, map_app. split; [reflexivity|].
  eapply fresh_run_app; [exact Hf1 | apply fresh_run_css].
Qed.

(** ** The methods in production mode, on a loader that holds a manifest *)

Lemma manifest_lacks_iff (m : Manifest) (path : string) :
  manifest_lacks (ldr m) path = negb (dict_in path m).
Proof.
  unfold manifest_lacks. simpl. destruct m as [|kv m]; reflexivity.
Qed.

(** [generate_vite_asset] in production mode, on a key of the manifest: the
    walk from the empty list, then the script tag. *)
Lemma generate_vite_asset_production (m : Manifest) (fuel : nat)
    (path : string) (kwargs : dict string) (e : ManifestEntry) :
  DJANGO_VITE_DEV_MODE settings = false ->
  dict_get m path = Some e ->
  generate_vite_asset (ldr m) fuel path kwargs
  = (r <- _generate_css_files_of_asset fuel (ldr m) path [] ;;
     Return (join NL
               (fst r ++
                [_generate_script_tag (_generate_production_server_url (file e))
                   (dict_update [("type", "module"); ("crossorigin", EmptyString)]
                      kwargs)]))).
Proof.
  intros Hprod He. unfold generate_vite_asset.
  rewrite Hprod, manifest_lacks_iff. unfold dict_in, manifest_getitem. simpl.
  now rewrite He.
Qed.

Lemma generate_vite_asset_absent (self : DjangoViteAssetLoader) (fuel : nat)
    (path : string) (kwargs : dict string) :
  DJANGO_VITE_DEV_MODE settings = false ->
  manifest_lacks self path = true ->
  generate_vite_asset self fuel path kwargs = Raise (AssetNotFoundError path).
Proof.
  intros Hprod Hl. unfold generate_vite_asset. now rewrite Hprod, Hl.
Qed.

Lemma link_is_no_script_tag (href : string) :
  is_script_tag (_generate_stylesheet_tag href) = false.
Proof. reflexivity. Qed.

Lemma script_is_script_tag (src : string) (attrs : dict string) :
  is_script_tag (_generate_script_tag src attrs) = true.
Proof.
  unfold is_script_tag, _generate_script_tag. apply prefix_iff.
  eexists. reflexivity.
Qed.

Lemma one_script_tag (links : list string) (src : string) (attrs : dict string) :
  length (filter is_script_tag
            (map css_tag links ++ [_generate_script_tag src attrs])) = 1.
Proof.
  rewrite filter_app, length_app. cbn [filter].
  rewrite script_is_script_tag. cbn [length].
  replace (filter is_script_tag (map css_tag links)) with (@nil string);
    [reflexivity|].
  induction links as [|c links IH]; simpl; [reflexivity | exact IH].
Qed.

(** On a key whose imports are all keys and lead to no cycle, the walk
    returns, with the same answer for every fuel above the number of
    entries. *)
Lemma walk_returns (m : Manifest) (p : string) (ap : list string) :
  dict_in p m = true -> imports_closed m p -> ~ cycle_reachable m p ->
  exists x, forall fuel, length m < fuel ->
    _generate_css_files_of_asset fuel (ldr m) p ap = Return x.
Proof.
  intros Hp Hclosed Hacyc.
  destruct (_generate_css_files_of_asset (S (length m)) (ldr m) p ap)
    as [x|e|] eqn:E.
  - exists x. intros fuel Hfuel.
    apply (walk_mono (S (length m))); [lia | exact E | discriminate].
  - exfalso. exact (walk_closed_no_raise m p Hp Hclosed _ _ _ E).
  - exfalso. exact (walk_terminates m p ap Hacyc E).
Qed.

(** ** The tags of an entry in production mode *)

(** C1 (amended).  In production mode, for an entry of the manifest whose
    imports, direct or not, are all keys of the manifest and lead to no
    cycle, [generate_vite_asset] returns, for every fuel above the number of
    entries, the newline-joined list of the [<link>] tags of pairwise
    different CSS paths followed by one script tag; that list holds exactly
    one script tag, its [src] is the production URL of the entry's file and
    its attributes are [type=module] and [crossorigin] merged with the
    caller's, the caller's value standing where both name a key. *)
Theorem generate_vite_asset_tags (m : Manifest) (path : string)
    (kwargs : dict string) (e : ManifestEntry) :
  DJANGO_VITE_DEV_MODE settings = false ->
  dict_get m path = Some e ->
  imports_closed m path ->
  ~ cycle_reachable m path ->
  let defaults := [("type", "module"); ("crossorigin", EmptyString)] in
  let attrs := dict_update defaults kwargs in
  let script :=
    _generate_script_tag (_generate_production_server_url (file e)) attrs in
  exists links,
    NoDup links
    /\ (forall fuel, length m < fuel ->
          generate_vite_asset (ldr m) fuel path kwargs
          = Return (join NL (map css_tag links ++ [script])))
    /\ length (filter is_script_tag (map css_tag links ++ [script])) = 1
    /\ (is_dict kwargs ->
        forall k, dict_get attrs k
                  = match dict_get kwargs k with
                    | Some v => Some v
                    | None => dict_get defaults k
                    end).
Proof.
  intros Hprod He Hclosed Hacyc defaults attrs script.
  assert (Hp : dict_in path m = true) by (unfold dict_in; now rewrite He).
  destruct (walk_returns m path [] Hp Hclosed Hacyc) as ([tags ap'] & Hret).
  destruct (walk_emits m _ _ _ _ _ (Hret _ (Nat.lt_succ_diag_r _)))
    as (links & -> & Hnd & _).
  exists links. split; [exact Hnd|]. split; [|split].
  - intros fuel Hfuel.
    rewrite (generate_vite_asset_production m fuel path kwargs e Hprod He).
    now rewrite (Hret fuel Hfuel).
  - apply one_script_tag.
  - intros Hkw k. now apply dict_get_update.
Qed.

(** ** One [<link>] per CSS path *)

(** C2.  The tags a walk returns are the [<link>] tags of pairwise
    different CSS paths; none of these paths was among the processed ones
    the walk was handed, whichever branch of the recursion had added it, and
    all of them are among the processed ones it hands back.  So the text
    [generate_vite_asset] returns in production mode is made of the
    [<link>] tags of pairwise different CSS paths and of one script tag. *)
Theorem css_files_emitted_once :
  (forall m fuel path ap tags ap',
     _generate_css_files_of_asset fuel (ldr m) path ap = Return (tags, ap') ->
     exists links, tags = map css_tag links /\ fresh_run ap links ap')
  /\ (forall self fuel path kwargs s,
        DJANGO_VITE_DEV_MODE settings = false ->
        generate_vite_asset self fuel path kwargs = Return s ->
        exists links script,
          NoDup links
          /\ is_script_tag script = true
          /\ s = join NL (map css_tag links ++ [script])).
Proof.
  split.
  - intros m fuel path ap tags ap'. apply walk_emits.
  - intros [[m|]] fuel path kwargs s Hprod Hret.
    + destruct (dict_get m path) as [e|] eqn:He.
      * rewrite (generate_vite_asset_production m fuel path kwargs e Hprod He)
          in Hret.
        destruct (_generate_css_files_of_asset fuel (ldr m) path [])
          as [[tags ap']| |] eqn:E; simpl in Hret; try discriminate.
        destruct (walk_emits m _ _ _ _ _ E) as (links & -> & Hnd & _).
        inversion Hret; subst. do 2 eexists.
        split; [exact Hnd|]. split; [|reflexivity]. apply script_is_script_tag.
      * rewrite generate_vite_asset_absent in Hret; [discriminate|exact Hprod|].
        rewrite manifest_lacks_iff. unfold dict_in. now rewrite He.
    + rewrite generate_vite_asset_absent in Hret; auto. discriminate.
Qed.

(** ** Imports before the entry's own CSS *)


(** ** Development mode *)

Lemma str_last_some_nonempty (s : string) :
  s <> EmptyString -> exists c, str_last s = Some c.
Proof.
  induction s as [|c s IH]; [congruence|]. intros _.
  destruct s as [|c' s]; [now exists c|].
  destruct IH as [c0 H]; [discriminate|]. exists c0. exact H.
Qed.

Lemma str_last_snoc (s : string) (c : ascii) :
  str_last s = Some c -> exists s0, s = s0 +:+ String c EmptyString.
Proof.
  induction s as [|c0 s IH]; [discriminate|].
  destruct s as [|c' s].
  - intros H. inversion H; subst. now exists EmptyString.
  - intros H. destruct (IH H) as [s0 E]. exists (String c0 s0).
    simpl. now rewrite <- E.
Qed.

(** [ensure_trailing_slash] does what its name says, and leaves alone a
    text that ends in [/]. *)
Lemma ensure_trailing_slash_spec (s : string) :
  (exists s0, ensure_trailing_slash s = s0 +:+ "/")
  /\ ((exists s0, s = s0 +:+ "/") -> ensure_trailing_slash s = s).
Proof.
  unfold ensure_trailing_slash. split.
  - destruct (str_last s) as [c|] eqn:E; [|now exists EmptyString].
    destruct (Ascii.eqb_spec c slash) as [->|_]; [|now exists s].
    exact (str_last_snoc s _ E).
  - intros [s0 ->].
    assert (E : str_last (s0 +:+ "/") = Some slash).
    { induction s0 as [|c s0 IH]; [reflexivity|].
      simpl. rewrite IH. destruct (s0 +:+ "/") eqn:E0; [|reflexivity].
      destruct s0; discriminate. }
    rewrite E. now rewrite Ascii.eqb_refl.
Qed.

Lemma vite_server_url_eq (path : string) :
  urljoin host (STATIC_URL settings) (DJANGO_VITE_STATIC_URL_PREFIX settings)
  <> EmptyString ->
  _generate_vite_server_url path = Return (dev_server_url path).
Proof.
  intros Hne. unfold _generate_vite_server_url, dev_server_url,
    ensure_trailing_slash.
  destruct (str_last_some_nonempty _ Hne) as [c ->].
  now destruct (Ascii.eqb c slash).
Qed.

(** On an empty static URL the subscript [[-1]] raises, whatever the
    path. *)
Lemma vite_server_url_empty (path : string) :
  urljoin host (STATIC_URL settings) (DJANGO_VITE_STATIC_URL_PREFIX settings)
  = EmptyString ->
  _generate_vite_server_url path = Raise IndexError.
Proof.
  intros E. unfold _generate_vite_server_url. now rewrite E.
Qed.

(** C4 (amended).  In development mode, with a static URL that is not
    empty, [generate_vite_asset] returns for every path one script tag whose
    [src] is the development URL: the origin [protocol://host:port] joined,
    by [urljoin], with the join of the static URL, ended by a [/], and the
    path.  Its attributes are [type=module] merged with the caller's: the
    type is [module] unless the caller names one, and with no attribute
    from the caller the tag is [<script type="module" src="...">].  The
    answer is the same for every loader and every fuel, so the manifest has
    no part in it; the tag [vite_asset], started with no loader built,
    builds one that holds no manifest.  The URL is the text of the origin
    followed by the static URL and the path when the two joins are plain
    concatenations; what [urljoin] makes of other paths is its own. *)
Theorem generate_vite_asset_dev (self : DjangoViteAssetLoader) (fuel : nat)
    (path : string) (kwargs : dict string) :
  DJANGO_VITE_DEV_MODE settings = true ->
  urljoin host (STATIC_URL settings) (DJANGO_VITE_STATIC_URL_PREFIX settings)
  <> EmptyString ->
  let origin :=
    DJANGO_VITE_DEV_SERVER_PROTOCOL settings +:+ "://"
    +:+ DJANGO_VITE_DEV_SERVER_HOST settings +:+ ":"
    +:+ DJANGO_VITE_DEV_SERVER_PORT settings in
  let static :=
    ensure_trailing_slash
      (urljoin host (STATIC_URL settings)
         (DJANGO_VITE_STATIC_URL_PREFIX settings)) in
  let attrs := dict_update [("type", "module")] kwargs in
  let tag := _generate_script_tag (dev_server_url path) attrs in
  generate_vite_asset self fuel path kwargs = Return tag
  /\ is_script_tag tag = true
  /\ (dict_in "type" kwargs = false -> dict_get attrs "type" = Some "module")
  /\ (kwargs = [] ->
      tag = "<script type=" +:+ DQ +:+ "module" +:+ DQ +:+ " src=" +:+ DQ
            +:+ dev_server_url path +:+ DQ +:+ "></script>")
  /\ vite_asset fuel path kwargs None = (Return tag, Some (mkLoader None))
  /\ dev_server_url path = urljoin host origin (urljoin host static path)
  /\ (exists s0, static = s0 +:+ "/")
  /\ (urljoin host static path = static +:+ path ->
      urljoin host origin (static +:+ path) = origin +:+ static +:+ path ->
      dev_server_url path = origin +:+ static +:+ path).
Proof.
  intros Hdev Hne origin static attrs tag.
  assert (Hgen : forall self0,
             generate_vite_asset self0 fuel path kwargs = Return tag).
  { intros self0. unfold generate_vite_asset.
    now rewrite Hdev, (vite_server_url_eq path Hne). }
  split; [apply Hgen|]. split; [apply script_is_script_tag|].
  split; [|split; [|split; [|split; [|split]]]].
  - unfold attrs, dict_update. clear. revert kwargs.
    assert (H : forall (kw d : dict string),
               dict_get d "type" = Some "module" -> dict_in "type" kw = false ->
               dict_get (fold_left (fun acc kv => dict_set acc (fst kv) (snd kv))
                           kw d) "type" = Some "module").
    { induction kw as [|[k v] kw IH]; intros d Hd Hkw; [exact Hd|].
      simpl. unfold dict_in in Hkw. simpl in Hkw.
      destruct (String.eqb_spec k "type") as [->|Hk]; [discriminate|].
      apply IH; [|exact Hkw]. now rewrite dict_get_set_other. }
    intros kwargs. now apply H.
  - intros ->. reflexivity.
  - unfold vite_asset, instance. rewrite Hdev. simpl. now rewrite Hgen.
  - reflexivity.
  - apply ensure_trailing_slash_spec.
  - intros Hinner Houter. unfold dev_server_url. fold static. fold origin.
    now rewrite Hinner, Houter.
Qed.

(** ** Missing entries *)

Lemma generate_vite_asset_url_production (m : Manifest) (path : string) :
  DJANGO_VITE_DEV_MODE settings = false ->
  generate_vite_asset_url (ldr m) path
  = match dict_get m path with
    | Some e => Return (_generate_production_server_url (file e))
    | None => Raise (AssetNotFoundError path)
    end.
Proof.
  intros Hprod. unfold generate_vite_asset_url.
  rewrite Hprod, manifest_lacks_iff. unfold dict_in, manifest_getitem. simpl.
  now destruct (dict_get m path).
Qed.

Lemma generate_vite_legacy_asset_production (m : Manifest) (path : string)
    (kwargs : dict string) :
  DJANGO_VITE_DEV_MODE settings = false ->
  generate_vite_legacy_asset (ldr m) path kwargs
  = match dict_get m path with
    | Some e =>
        Return (_generate_script_tag (_generate_production_server_url (file e))
                  (dict_update
                     [("nomodule", EmptyString); ("crossorigin", EmptyString)]
                     kwargs))
    | None => Raise (AssetNotFoundError path)
    end.
Proof.
  intros Hprod. unfold generate_vite_legacy_asset.
  rewrite Hprod, manifest_lacks_iff. unfold dict_in, manifest_getitem. simpl.
  now destruct (dict_get m path).
Qed.

(** In production mode, on a key of the manifest, [generate_vite_asset]
    raises no [RuntimeError]: what it raises comes from the walk. *)
Lemma generate_vite_asset_raise (m : Manifest) (fuel : nat) (path : string)
    (kwargs : dict string) (e : exn) :
  DJANGO_VITE_DEV_MODE settings = false ->
  dict_in path m = true ->
  generate_vite_asset (ldr m) fuel path kwargs = Raise e ->
  _generate_css_files_of_asset fuel (ldr m) path [] = Raise e
  /\ exists r, e = KeyError r /\ dict_in r m = false.
Proof.
  intros Hprod Hp. unfold dict_in in Hp.
  destruct (dict_get m path) as [e0|] eqn:He; [|discriminate].
  rewrite (generate_vite_asset_production m fuel path kwargs e0 Hprod He).
  destruct (_generate_css_files_of_asset fuel (ldr m) path []) as [x|e1|] eqn:E;
    simpl; try discriminate.
  intros H. inversion H; subst. split; [reflexivity|].
  destruct (walk_raise _ _ _ _ _ E) as (r & -> & Hr & _). eauto.
Qed.

(** C5 (amended).  In production mode, on a loader that holds a manifest,
    each of [generate_vite_asset], [generate_vite_asset_url] and
    [generate_vite_legacy_asset] raises the error of a missing asset if and
    only if the path is no key of the manifest.  On a key,
    [generate_vite_asset_url] returns the production URL of the entry's
    file and nothing else, [generate_vite_legacy_asset] returns one script
    tag, and [generate_vite_asset] raises no [RuntimeError] at all. *)
Theorem asset_not_found_iff (m : Manifest) (path : string) :
  DJANGO_VITE_DEV_MODE settings = false ->
  (forall fuel kwargs,
     generate_vite_asset (ldr m) fuel path kwargs = Raise (AssetNotFoundError path)
     <-> dict_in path m = false)
  /\ (generate_vite_asset_url (ldr m) path = Raise (AssetNotFoundError path)
      <-> dict_in path m = false)
  /\ (forall kwargs,
        generate_vite_legacy_asset (ldr m) path kwargs
        = Raise (AssetNotFoundError path)
        <-> dict_in path m = false)
  /\ (forall e, dict_get m path = Some e ->
        generate_vite_asset_url (ldr m) path
        = Return (_generate_production_server_url (file e))
        /\ (forall kwargs,
              generate_vite_legacy_asset (ldr m) path kwargs
              = Return (_generate_script_tag
                          (_generate_production_server_url (file e))
                          (dict_update
                             [("nomodule", EmptyString);
                              ("crossorigin", EmptyString)] kwargs)))
        /\ (forall fuel kwargs msg,
              generate_vite_asset (ldr m) fuel path kwargs
              <> Raise (RuntimeError msg))).
Proof.
  intros Hprod. split; [|split; [|split]].
  - intros fuel kwargs. split.
    + intros Hraise. destruct (dict_in path m) eqn:Hp; [|reflexivity].
      destruct (generate_vite_asset_raise _ _ _ _ _ Hprod Hp Hraise)
        as (_ & r & Hr & _). discriminate.
    + intros Hp. apply generate_vite_asset_absent; [exact Hprod|].
      now rewrite manifest_lacks_iff, Hp.
  - rewrite (generate_vite_asset_url_production m path Hprod). unfold dict_in.
    destruct (dict_get m path); split; congruence.
  - intros kwargs.
    rewrite (generate_vite_legacy_asset_production m path kwargs Hprod).
    unfold dict_in. destruct (dict_get m path); split; congruence.
  - intros e He. split; [|split].
    + now rewrite (generate_vite_asset_url_production m path Hprod), He.
    + intros kwargs.
      now rewrite (generate_vite_legacy_asset_production m path kwargs Hprod), He.
    + intros fuel kwargs msg Hraise.
      assert (Hp : dict_in path m = true) by (unfold dict_in; now rewrite He).
      destruct (generate_vite_asset_raise _ _ _ _ _ Hprod Hp Hraise)
        as (_ & r & Hr & _). discriminate.
Qed.

(** ** Legacy assets and polyfills *)

Lemma polyfills_loop_first (before after : Manifest) (path : string)
    (content : ManifestEntry) (scripts_attrs : dict string) :
  (forall k v, In (k, v) before ->
     str_contains (DJANGO_VITE_LEGACY_POLYFILLS_MOTIF settings) k = false) ->
  str_contains (DJANGO_VITE_LEGACY_POLYFILLS_MOTIF settings) path = true ->
  polyfills_loop (before ++ (path, content) :: after) scripts_attrs
  = Return (_generate_script_tag (_generate_production_server_url (file content))
              scripts_attrs).
Proof.
  intros Hbefore Hpath. induction before as [|[k v] before IH]; simpl.
  - now rewrite Hpath.
  - rewrite (Hbefore k v) by now left. apply IH.
    intros k' v' Hin. apply (Hbefore k' v'). now right.
Qed.

Lemma polyfills_loop_none (m : Manifest) (scripts_attrs : dict string) :
  (forall k v, In (k, v) m ->
     str_contains (DJANGO_VITE_LEGACY_POLYFILLS_MOTIF settings) k = false) ->
  polyfills_loop m scripts_attrs = Raise PolyfillNotFoundError.
Proof.
  intros Hm. induction m as [|[k v] m IH]; simpl; [reflexivity|].
  rewrite (Hm k v) by now left. apply IH.
  intros k' v' Hin. apply (Hm k' v'). now right.
Qed.

(** X14.  In development mode [generate_vite_legacy_asset] and
    [generate_vite_legacy_polyfills] return the empty text, whatever the
    loader and the arguments.  In production mode, on a loader that holds a
    manifest, [generate_vite_legacy_polyfills] returns the script tag of the
    first entry, in the order of the manifest, whose key contains the
    polyfills motif, with the attributes [nomodule] and [crossorigin] merged
    with the caller's; it raises the error of missing polyfills when no key
    contains the motif. *)
Theorem legacy_polyfills_tags :
  (DJANGO_VITE_DEV_MODE settings = true ->
   forall self path kwargs,
     generate_vite_legacy_asset self path kwargs = Return EmptyString
     /\ generate_vite_legacy_polyfills self kwargs = Return EmptyString)
  /\ (DJANGO_VITE_DEV_MODE settings = false ->
      let motif := DJANGO_VITE_LEGACY_POLYFILLS_MOTIF settings in
      let occurs_in (k : string) := exists pre post, k = pre +:+ motif +:+ post in
      forall m kwargs,
        let attrs :=
          dict_update [("nomodule", EmptyString); ("crossorigin", EmptyString)]
            kwargs in
        (forall before path content after,
           m = before ++ (path, content) :: after ->
           (forall k v, In (k, v) before -> ~ occurs_in k) ->
           occurs_in path ->
           generate_vite_legacy_polyfills (ldr m) kwargs
           = Return (_generate_script_tag
                       (_generate_production_server_url (file content)) attrs))
        /\ ((forall k v, In (k, v) m -> ~ occurs_in k) ->
            generate_vite_legacy_polyfills (ldr m) kwargs
            = Raise PolyfillNotFoundError)
        /\ (is_dict kwargs ->
            forall k, dict_get attrs k
                      = match dict_get kwargs k with
                        | Some v => Some v
                        | None =>
                            dict_get [("nomodule", EmptyString);
                                      ("crossorigin", EmptyString)] k
                        end)).
Proof.
  split.
  - intros Hdev self path kwargs.
    unfold generate_vite_legacy_asset, generate_vite_legacy_polyfills.
    now rewrite Hdev.
  - intros Hprod motif occurs_in m kwargs attrs.
    assert (Hno : forall k, ~ occurs_in k -> str_contains motif k = false).
    { intros k Hk. destruct (str_contains motif k) eqn:E; [|reflexivity].
      exfalso. apply Hk. now apply str_contains_iff. }
    unfold generate_vite_legacy_polyfills. rewrite Hprod. cbn [_manifest].
    split; [|split].
    + intros before path content after -> Hbefore Hpath.
      apply polyfills_loop_first.
      * intros k v Hin. apply Hno. eapply Hbefore; eauto.
      * now apply str_contains_iff.
    + intros Hm. apply polyfills_loop_none.
      intros k v Hin. apply Hno. eapply Hm; eauto.
    + intros Hkw k. now apply dict_get_update.
Qed.

(** ** Construction *)

Lemma instance_some (self : DjangoViteAssetLoader) :
  instance (Some self) = (Return self, Some self).
Proof. reflexivity. Qed.

(** A call of [instance] that returns a loader leaves that loader in the
    class. *)
Lemma instance_returns (st : option DjangoViteAssetLoader)
    (self : DjangoViteAssetLoader) :
  fst (instance st) = Return self -> instance st = (Return self, Some self).
Proof.
  destruct st as [self0|]; simpl.
  - intros H. now inversion H.
  - unfold _parse_manifest.
    destruct (DJANGO_VITE_DEV_MODE settings); simpl.
    + intros H. now inversion H.
    + destruct (read_text host (DJANGO_VITE_MANIFEST_PATH settings)) as [c|err];
        simpl; [|discriminate].
      destruct (json_loads host c) as [m|err]; simpl; [|discriminate].
      intros H. now inversion H.
Qed.

(** C7 (amended).  In production mode, when the manifest file cannot be
    read or its content does not parse, the call of [instance] that builds
    the loader raises the error of a manifest that cannot be read and
    returns no loader; when both succeed it returns a loader holding the
    parsed manifest, and a loader this call returns always holds one.  The
    failed call leaves the new object, with no manifest, in the class: the
    next call of [instance] returns that object without reading the file
    again, and on it [generate_vite_asset], [generate_vite_asset_url] and
    [generate_vite_legacy_asset] raise the error of a missing asset for
    every path. *)
Theorem instance_manifest_load :
  DJANGO_VITE_DEV_MODE settings = false ->
  let manifest_path := DJANGO_VITE_MANIFEST_PATH settings in
  let load_fails (error : string) :=
    read_text host manifest_path = inr error
    \/ exists content,
         read_text host manifest_path = inl content
         /\ json_loads host content = inr error in
  let load_gives (m : Manifest) :=
    exists content,
      read_text host manifest_path = inl content
      /\ json_loads host content = inl m in
  (forall error, load_fails error ->
     instance None = (Raise (ManifestLoadError error), Some (mkLoader None)))
  /\ (forall m, load_gives m ->
        instance None = (Return (ldr m), Some (ldr m)))
  /\ (forall self st, instance None = (Return self, st) ->
        exists m, load_gives m /\ self = ldr m /\ st = Some self)
  /\ instance (Some (mkLoader None)) = (Return (mkLoader None), Some (mkLoader None))
  /\ (forall fuel path kwargs,
        generate_vite_asset (mkLoader None) fuel path kwargs
        = Raise (AssetNotFoundError path)
        /\ generate_vite_asset_url (mkLoader None) path
           = Raise (AssetNotFoundError path)
        /\ generate_vite_legacy_asset (mkLoader None) path kwargs
           = Raise (AssetNotFoundError path)).
Proof.
  intros Hprod manifest_path load_fails load_gives.
  unfold load_fails, load_gives, manifest_path.
  split; [|split; [|split; [|split]]].
  - intros error [Hread|(content & Hread & Hparse)];
      unfold instance, _parse_manifest; rewrite Hprod, Hread; simpl;
      [reflexivity | now rewrite Hparse].
  - intros m (content & Hread & Hparse).
    unfold instance, _parse_manifest. rewrite Hprod, Hread. simpl.
    now rewrite Hparse.
  - intros self st. unfold instance, _parse_manifest. rewrite Hprod. simpl.
    destruct (read_text host (DJANGO_VITE_MANIFEST_PATH settings))
      as [content|err] eqn:Hread; simpl; [|discriminate].
    destruct (json_loads host content) as [m|err] eqn:Hparse; simpl;
      [|discriminate].
    intros H. inversion H; subst. exists m. eauto.
  - reflexivity.
  - intros fuel path kwargs.
    unfold generate_vite_asset, generate_vite_asset_url,
      generate_vite_legacy_asset. now rewrite Hprod.
Qed.

(** ** Calling a tag twice *)

Lemma h_read_old (h extra : heap) (r : nat) :
  r < length h -> h_read r (h ++ extra) = h_read r h.
Proof. intros Hr. unfold h_read. now apply app_nth1. Qed.

Lemma h_read_new (h : heap) (v : list string) :
  h_read (length h) (h ++ [v]) = v.
Proof. unfold h_read. now rewrite nth_middle. Qed.

Lemma h_write_length (r : nat) (v : list string) (h : heap) :
  length (h_write r v h) = length h.
Proof.
  revert r. induction h as [|x h IH]; intros r; [reflexivity|].
  destruct r; simpl; [reflexivity | now rewrite IH].
Qed.

Lemma h_read_write_same (r : nat) (v : list string) (h : heap) :
  r < length h -> h_read r (h_write r v h) = v.
Proof.
  unfold h_read. revert r. induction h as [|x h IH]; intros r Hr; simpl in Hr.
  - lia.
  - destruct r; simpl; [reflexivity | apply IH; lia].
Qed.

Lemma h_read_write_other (r r' : nat) (v : list string) (h : heap) :
  r <> r' -> h_read r' (h_write r v h) = h_read r' h.
Proof.
  unfold h_read. revert r r'. induction h as [|x h IH]; intros r r' Hne.
  - reflexivity.
  - destruct r, r'; simpl; try reflexivity; [congruence | apply IH; congruence].
Qed.

Lemma h_extend_length (r : nat) (items : list string) (h : heap) :
  length (h_extend r items h) = length h.
Proof. apply h_write_length. Qed.

Lemma h_read_extend_same (r : nat) (items : list string) (h : heap) :
  r < length h -> h_read r (h_extend r items h) = h_read r h ++ items.
Proof. intros Hr. unfold h_extend. now apply h_read_write_same. Qed.

Lemma h_read_extend_other (r r' : nat) (items : list string) (h : heap) :
  r <> r' -> h_read r' (h_extend r items h) = h_read r' h.
Proof. intros Hne. unfold h_extend. now apply h_read_write_other. Qed.

(** The CSS loop on list objects leaves in [tags] and [already_processed]
    what the loop on values returns, and touches no other object. *)
Lemma css_loop_st_spec (tag : string -> string) (l : list string)
    (tags ap : nat) :
  tags <> ap ->
  forall h,
    tags < length h -> ap < length h ->
    let h' := css_loop_st tag l tags ap h in
    length h' = length h
    /\ (h_read tags h', h_read ap h')
       = css_loop tag l (h_read tags h) (h_read ap h)
    /\ forall r, r <> tags -> r <> ap -> h_read r h' = h_read r h.
Proof.
  intros Hne. induction l as [|c l IH]; intros h Ht Ha; simpl.
  - repeat split.
  - set (h1 := if negb (list_in c (h_read ap h))
               then h_extend tags [tag c] h else h).
    assert (Hlen1 : length h1 = length h).
    { unfold h1. destruct (negb _); [apply h_extend_length | reflexivity]. }
    assert (Hap1 : h_read ap h1 = h_read ap h).
    { unfold h1. destruct (negb _); [|reflexivity].
      now apply h_read_extend_other. }
    assert (Htags1 : h_read tags h1
                     = if negb (list_in c (h_read ap h))
                       then h_read tags h ++ [tag c] else h_read tags h).
    { unfold h1. destruct (negb _); [|reflexivity].
      now apply h_read_extend_same. }
    assert (Hoth1 : forall r, r <> tags -> h_read r h1 = h_read r h).
    { intros r Hr. unfold h1. destruct (negb _); [|reflexivity].
      apply h_read_extend_other. congruence. }
    destruct (IH (h_extend ap [c] h1)) as (Hlen & Hpair & Hoth).
    { rewrite h_extend_length. lia. }
    { rewrite h_extend_length. lia. }
    split; [|split].
    + rewrite Hlen, h_extend_length. exact Hlen1.
    + rewrite Hpair.
      rewrite h_read_extend_other by congruence.
      rewrite h_read_extend_same by lia.
      now rewrite Htags1, Hap1.
    + intros r Hrt Hra. rewrite (Hoth r Hrt Hra).
      rewrite h_read_extend_other by congruence. now apply Hoth1.
Qed.

Lemma heap_frame_refl (ap : nat) (h : heap) : heap_frame ap h h.
Proof. split; auto. Qed.

Lemma heap_frame_trans (ap : nat) (h1 h2 h3 : heap) :
  heap_frame ap h1 h2 -> heap_frame ap h2 h3 -> heap_frame ap h1 h3.
Proof.
  intros [Hl1 Hr1] [Hl2 Hr2]. split; [lia|].
  intros r Hr Hne. rewrite Hr2 by (auto; lia). now apply Hr1.
Qed.

(** The imports loop on list objects, over a recursive call that does what
    the call on values says. *)
Lemma imports_loop_st_spec
    (rec_st : string -> nat -> heap -> outcome nat * heap)
    (rec : string -> list string -> outcome (list string * list string))
    (tags ap : nat) :
  walk_refines rec_st rec ->
  tags <> ap ->
  forall l h,
    tags < length h -> ap < length h ->
    exists h',
      length h <= length h'
      /\ (forall r, r < length h -> r <> tags -> r <> ap ->
                    h_read r h' = h_read r h)
      /\ match imports_loop rec l (h_read tags h) (h_read ap h) with
         | Return (tv, apv) =>
             imports_loop_st rec_st l tags ap h = (Return tt, h')
             /\ h_read tags h' = tv /\ h_read ap h' = apv
         | Raise e => imports_loop_st rec_st l tags ap h = (Raise e, h')
         | OutOfFuel => imports_loop_st rec_st l tags ap h = (OutOfFuel, h')
         end.
Proof.
  intros Hrec Hne l. induction l as [|q l IH]; intros h Ht Ha; simpl.
  - exists h. repeat split; auto.
  - destruct (Hrec q ap h Ha) as (h1 & [Hlen1 Hkeep1] & Hq).
    destruct (rec q (h_read ap h)) as [[tv apv]|e|]; simpl.
    + destruct Hq as (t & Hst & Htlo & Hthi & Htv & Hapv). rewrite Hst.
      set (h2 := h_extend tags (h_read t h1) h1).
      assert (Hlen2 : length h2 = length h1) by apply h_extend_length.
      destruct (IH h2) as (h' & Hlen' & Hkeep' & Hloop); [lia | lia |].
      assert (Htags2 : h_read tags h2 = h_read tags h ++ tv).
      { unfold h2. rewrite h_read_extend_same by lia.
        rewrite Htv, Hkeep1 by (auto; lia). reflexivity. }
      assert (Hap2 : h_read ap h2 = apv).
      { unfold h2. rewrite h_read_extend_other by congruence. exact Hapv. }
      rewrite Htags2, Hap2 in Hloop.
      exists h'. split; [lia|]. split; [|exact Hloop].
      intros r Hr Hrt Hra. rewrite Hkeep' by (auto; lia).
      unfold h2. rewrite h_read_extend_other by congruence.
      now apply Hkeep1.
    + rewrite Hq. exists h1. split; [exact Hlen1|]. split; [|reflexivity].
      intros r Hr _ Hra. now apply Hkeep1.
    + rewrite Hq. exists h1. split; [exact Hlen1|]. split; [|reflexivity].
      intros r Hr _ Hra. now apply Hkeep1.
Qed.

Lemma walk_step_lists (n : nat) (self : DjangoViteAssetLoader) (p : string)
    (ap : list string) :
  _generate_css_files_of_asset (S n) self p ap
  = (manifest_entry <- manifest_getitem self p ;;
     r <- imports_loop (_generate_css_files_of_asset n self)
            (opt_list (imports manifest_entry)) [] ap ;;
     Return (css_loop css_tag (opt_list (css manifest_entry)) (fst r) (snd r))).
Proof.
  rewrite walk_step. destruct (manifest_getitem self p) as [e| |]; simpl;
    try reflexivity.
  destruct (imports e) as [l|]; simpl.
  - destruct (imports_loop _ l [] ap) as [[t ap1]| |]; simpl; try reflexivity.
    now destruct (css e).
  - now destruct (css e).
Qed.

Lemma walk_st_step (n : nat) (self : DjangoViteAssetLoader) (p : string)
    (ap : nat) (h : heap) :
  _generate_css_files_of_asset_st (S n) self p ap h
  = match manifest_getitem self p with
    | Return manifest_entry =>
        match
          imports_loop_st (_generate_css_files_of_asset_st n self)
            (opt_list (imports manifest_entry)) (length h) ap (h ++ [[]])
        with
        | (Return _, h1) =>
            (Return (length h),
             css_loop_st css_tag (opt_list (css manifest_entry)) (length h) ap h1)
        | (Raise e, h1) => (Raise e, h1)
        | (OutOfFuel, h1) => (OutOfFuel, h1)
        end
    | Raise e => (Raise e, h ++ [[]])
    | OutOfFuel => (OutOfFuel, h ++ [[]])
    end.
Proof.
  cbn [_generate_css_files_of_asset_st h_alloc].
  destruct (manifest_getitem self p) as [e| |]; try reflexivity.
  destruct (imports e) as [l|]; cbn [opt_list imports_loop_st].
  - destruct (imports_loop_st _ l (length h) ap (h ++ [[]])) as [[u|err|] h1];
      try reflexivity.
    now destruct (css e).
  - now destruct (css e).
Qed.

(** The walk on list objects does what the walk on values says: the list
    under the reference it is passed becomes the list handed back, the
    tags are in a new object, and every other object is as it was. *)
Lemma walk_st_refines (fuel : nat) (self : DjangoViteAssetLoader) :
  walk_refines (_generate_css_files_of_asset_st fuel self)
    (_generate_css_files_of_asset fuel self).
Proof.
  induction fuel as [|fuel IH]; intros p ap h Ha.
  - exists h. split; [apply heap_frame_refl | reflexivity].
  - rewrite walk_step_lists, walk_st_step.
    set (tags := length h). set (h0 := h ++ [[]]).
    assert (Hlen0 : length h0 = S (length h)).
    { unfold h0. rewrite length_app. simpl. lia. }
    assert (Hold0 : forall r, r < length h -> h_read r h0 = h_read r h).
    { intros r Hr. now apply h_read_old. }
    assert (Htags0 : h_read tags h0 = []) by apply h_read_new.
    assert (Hne : tags <> ap) by (unfold tags; lia).
    destruct (manifest_getitem self p) as [e| |]; simpl.
    2:{ exists h0. split; [|reflexivity]. split; [lia | auto]. }
    2:{ exists h0. split; [|reflexivity]. split; [lia | auto]. }
    destruct (imports_loop_st_spec _ _ tags ap IH Hne
                (opt_list (imports e)) h0)
      as (h1 & Hlen1 & Hkeep1 & Hres); [unfold tags; lia | lia |].
    rewrite Htags0, (Hold0 ap Ha) in Hres.
    assert (Hframe1 : forall r, r < length h -> r <> ap ->
                                h_read r h1 = h_read r h).
    { intros r Hr Hra. rewrite Hkeep1 by (auto; unfold tags; lia).
      now apply Hold0. }
    destruct (imports_loop (_generate_css_files_of_asset fuel self)
                (opt_list (imports e)) [] (h_read ap h))
      as [[tv apv]|err|]; simpl.
    + destruct Hres as (Hst & Htv & Hapv). rewrite Hst.
      destruct (css_loop_st_spec css_tag (opt_list (css e)) tags ap Hne h1)
        as (Hlen' & Hpair & Hkeep'); [unfold tags; lia | lia |].
      rewrite Htv, Hapv in Hpair.
      exists (css_loop_st css_tag (opt_list (css e)) tags ap h1). split.
      * split; [lia|]. intros r Hr Hra.
        rewrite Hkeep' by (auto; unfold tags; lia). now apply Hframe1.
      * destruct (css_loop css_tag (opt_list (css e)) tv apv) as [tv' apv'].
        inversion Hpair; subst. exists tags.
        split; [reflexivity|]. split; [unfold tags; lia|].
        split; [unfold tags in *; lia|]. split; reflexivity.
    + rewrite Hres. exists h1. split; [|reflexivity]. split; [lia | auto].
    + rewrite Hres. exists h1. split; [|reflexivity]. split; [lia | auto].
Qed.

(** [generate_vite_asset] on list objects returns what
    [generate_vite_asset] on values returns, whatever the store it starts
    from, and changes none of the objects that were there. *)
Lemma generate_vite_asset_st_spec (self : DjangoViteAssetLoader) (fuel : nat)
    (path : string) (kwargs : dict string) (h : heap) :
  exists h',
    generate_vite_asset_st self fuel path kwargs h
    = (generate_vite_asset self fuel path kwargs, h')
    /\ length h <= length h'
    /\ forall r, r < length h -> h_read r h' = h_read r h.
Proof.
  unfold generate_vite_asset_st, generate_vite_asset.
  destruct (DJANGO_VITE_DEV_MODE settings); [exists h; auto|].
  destruct (manifest_lacks self path); [exists h; auto|].
  cbn [h_alloc].
  set (tags := length h). set (h0 := h ++ [[]]).
  assert (Hlen0 : length h0 = S (length h)).
  { unfold h0. rewrite length_app. simpl. lia. }
  assert (Hold0 : forall r, r < length h -> h_read r h0 = h_read r h).
  { intros r Hr. now apply h_read_old. }
  destruct (manifest_getitem self path) as [e| |]; simpl.
  2:{ exists h0. split; [reflexivity|]. split; [lia | auto]. }
  2:{ exists h0. split; [reflexivity|]. split; [lia | auto]. }
  set (ap := length h0). set (h1 := h0 ++ [[]]).
  assert (Hlen1 : length h1 = S (length h0)).
  { unfold h1. rewrite length_app. simpl. lia. }
  assert (Hold1 : forall r, r < length h0 -> h_read r h1 = h_read r h0).
  { intros r Hr. now apply h_read_old. }
  assert (Hap1 : h_read ap h1 = []) by apply h_read_new.
  assert (Htags1 : h_read tags h1 = []).
  { rewrite Hold1 by (unfold tags; lia). apply h_read_new. }
  destruct (walk_st_refines fuel self path ap h1) as (h2 & [Hlen2 Hkeep2] & Hres);
    [unfold ap; lia|].
  rewrite Hap1 in Hres.
  assert (Hframe2 : forall r, r < length h -> h_read r h2 = h_read r h).
  { intros r Hr. rewrite Hkeep2 by (unfold ap; lia).
    rewrite Hold1 by lia. now apply Hold0. }
  destruct (_generate_css_files_of_asset fuel self path [])
    as [[tv apv]|err|]; simpl.
  - destruct Hres as (t & Hst & Htlo & Hthi & Htv & _). rewrite Hst.
    set (h3 := h_extend tags (h_read t h2) h2).
    set (h4 := h_extend tags _ h3).
    assert (Hne : tags <> t) by (unfold tags; lia).
    assert (Htags2 : h_read tags h2 = []).
    { rewrite Hkeep2 by (unfold tags, ap; lia). exact Htags1. }
    assert (Hlen3 : length h3 = length h2) by apply h_extend_length.
    assert (Htags3 : h_read tags h3 = tv).
    { unfold h3. rewrite h_read_extend_same by (unfold tags; lia).
      now rewrite Htags2, Htv. }
    exists h4. split; [|split].
    + unfold h4. rewrite h_read_extend_same by (unfold tags; lia).
      now rewrite Htags3.
    + unfold h4. rewrite h_extend_length. lia.
    + intros r Hr. unfold h4, h3.
      rewrite !h_read_extend_other by (unfold tags; lia). now apply Hframe2.
  - rewrite Hres. exists h2. split; [reflexivity|]. split; [lia | exact Hframe2].
  - rewrite Hres. exists h2. split; [reflexivity|]. split; [lia | exact Hframe2].
Qed.

(** C8.  A world holds the loader of the class and every list object made
    so far.  Once [instance] returns a loader, the tag [vite_asset] called
    twice with the same arguments returns the same text twice, the one
    [generate_vite_asset] computes from the loader and the arguments alone:
    the call makes its [tags] and its list of processed CSS paths anew,
    reads no list object left by an earlier call and changes none, and it
    leaves the loader in the class as it was.  The other tags, which make
    no list of their own, return the same answer twice as well. *)
Theorem tags_twice_same_output (w : world) (self : DjangoViteAssetLoader) :
  fst (instance (w_instance w)) = Return self ->
  (forall fuel path kwargs,
     let r := generate_vite_asset self fuel path kwargs in
     let w1 := snd (vite_asset_st fuel path kwargs w) in
     twice (vite_asset_st fuel path kwargs) w = (r, r)
     /\ w_instance w1 = Some self
     /\ length (w_lists w) <= length (w_lists w1)
     /\ forall a, a < length (w_lists w) ->
          h_read a (w_lists w1) = h_read a (w_lists w))
  /\ (forall path,
        let r := generate_vite_asset_url self path in
        twice (in_world (vite_asset_url path)) w = (r, r))
  /\ (forall kwargs,
        let r := generate_vite_legacy_polyfills self kwargs in
        twice (in_world (vite_legacy_polyfills kwargs)) w = (r, r))
  /\ (forall path kwargs,
        let r := generate_vite_legacy_asset self path kwargs in
        twice (in_world (vite_legacy_asset path kwargs)) w = (r, r))
  /\ (forall kwargs,
        let r := generate_vite_ws_client kwargs in
        twice (in_world (vite_hmr_client kwargs)) w = (r, r))
  /\ twice (in_world vite_react_refresh) w
     = (generate_vite_react_refresh_url, generate_vite_react_refresh_url).
Proof.
  intros Hinst. apply instance_returns in Hinst.
  split.
  - intros fuel path kwargs r w1.
    destruct (generate_vite_asset_st_spec self fuel path kwargs (w_lists w))
      as (h1 & Hfirst & Hlen1 & Hkeep1).
    destruct (generate_vite_asset_st_spec self fuel path kwargs h1)
      as (h2 & Hsecond & _).
    assert (Hw1 : vite_asset_st fuel path kwargs w = (r, mkWorld (Some self) h1)).
    { unfold vite_asset_st. now rewrite Hinst, Hfirst. }
    unfold w1, twice. rewrite Hw1. cbn [snd w_instance w_lists].
    unfold vite_asset_st at 1. cbn [w_instance w_lists].
    rewrite instance_some, Hsecond. auto.
  - repeat split; intros;
      unfold twice, in_world, vite_asset_url, vite_legacy_polyfills,
        vite_legacy_asset, vite_hmr_client, vite_react_refresh;
      rewrite ?Hinst; cbn [w_instance w_lists]; rewrite ?instance_some;
      reflexivity.
Qed.

(** ** Termination of the walk *)

Lemma acyclic_no_cycle_reachable (m : Manifest) (p : string) :
  acyclic m -> ~ cycle_reachable m p.
Proof. intros Hacyc (q & _ & Hq). exact (Hacyc q Hq). Qed.

Lemma cycle_reachable_key (m : Manifest) (p : string) :
  cycle_reachable m p -> dict_in p m = true.
Proof.
  intros (q & Hpq & q' & Hedge & _).
  destruct Hpq as [p|p q0 q Hp _]; eapply imports_edge_key; eauto.
Qed.

(** With no cycle in reach, the walk gives one answer, other than
    [OutOfFuel], for every fuel above the number of entries. *)
Lemma walk_answer (m : Manifest) (p : string) (ap : list string) :
  ~ cycle_reachable m p ->
  exists r, r <> OutOfFuel
            /\ forall fuel, length m < fuel ->
                 _generate_css_files_of_asset fuel (ldr m) p ap = r.
Proof.
  intros Hacyc.
  exists (_generate_css_files_of_asset (S (length m)) (ldr m) p ap).
  split; [now apply walk_terminates|].
  intros fuel Hfuel. apply (walk_mono (S (length m))); [lia | reflexivity|].
  now apply walk_terminates.
Qed.

(** C9 (amended).  For a manifest whose imports make no cycle, the walk
    terminates: for every fuel above the number of entries it gives one and
    the same answer, a return or a raise, and so does
    [generate_vite_asset] in production mode.  Nothing in the walk detects
    a cycle: from an entry that reaches one, the walk, and with it
    [generate_vite_asset], returns for no fuel; when moreover every import
    in reach is a key, it answers [OutOfFuel] for every fuel, that is, the
    recursion has no end. *)
Theorem css_walk_termination (m : Manifest) :
  (acyclic m ->
   (forall path ap,
      exists r, r <> OutOfFuel
                /\ forall fuel, length m < fuel ->
                     _generate_css_files_of_asset fuel (ldr m) path ap = r)
   /\ (DJANGO_VITE_DEV_MODE settings = false ->
       forall path kwargs,
         exists r, r <> OutOfFuel
                   /\ forall fuel, length m < fuel ->
                        generate_vite_asset (ldr m) fuel path kwargs = r))
  /\ (forall path,
        cycle_reachable m path ->
        (forall fuel ap x,
           _generate_css_files_of_asset fuel (ldr m) path ap <> Return x)
        /\ (imports_closed m path ->
            forall fuel ap,
              _generate_css_files_of_asset fuel (ldr m) path ap = OutOfFuel)
        /\ (DJANGO_VITE_DEV_MODE settings = false ->
            forall fuel kwargs,
              (forall s, generate_vite_asset (ldr m) fuel path kwargs <> Return s)
              /\ (imports_closed m path ->
                  generate_vite_asset (ldr m) fuel path kwargs = OutOfFuel))).
Proof.
  split.
  - intros Hacyc. split.
    + intros path ap. apply walk_answer.
      now apply acyclic_no_cycle_reachable.
    + intros Hprod path kwargs.
      destruct (dict_get m path) as [e|] eqn:He.
      * destruct (walk_answer m path []
                    (acyclic_no_cycle_reachable m path Hacyc))
          as (r & Hr & Hfuel).
        eexists. split; [|intros fuel Hlt].
        2:{ rewrite (generate_vite_asset_production m fuel path kwargs e Hprod He).
            rewrite (Hfuel fuel Hlt). reflexivity. }
        destruct r; simpl; congruence.
      * exists (Raise (AssetNotFoundError path)). split; [discriminate|].
        intros fuel _. apply generate_vite_asset_absent; [exact Hprod|].
        rewrite manifest_lacks_iff. unfold dict_in. now rewrite He.
  - intros path Hcyc.
    pose proof (cycle_reachable_key m path Hcyc) as Hp.
    assert (Hwalk : imports_closed m path -> forall fuel ap,
               _generate_css_files_of_asset fuel (ldr m) path ap = OutOfFuel).
    { intros Hclosed fuel ap.
      destruct (_generate_css_files_of_asset fuel (ldr m) path ap)
        as [x|e|] eqn:E; [| |reflexivity].
      - exfalso. exact (walk_cycle_no_return m path Hcyc _ _ _ E).
      - exfalso. exact (walk_closed_no_raise m path Hp Hclosed _ _ _ E). }
    split; [now apply walk_cycle_no_return|]. split; [exact Hwalk|].
    intros Hprod fuel kwargs. unfold dict_in in Hp.
    destruct (dict_get m path) as [e|] eqn:He; [|discriminate].
    rewrite (generate_vite_asset_production m fuel path kwargs e Hprod He).
    split.
    + intros s.
      destruct (_generate_css_files_of_asset fuel (ldr m) path [])
        as [x|e0|] eqn:E; simpl; try discriminate.
      exfalso. exact (walk_cycle_no_return m path Hcyc _ _ _ E).
    + intros Hclosed. now rewrite (Hwalk Hclosed).
Qed.

(** ** Imports that are no key *)

(** C10 (amended).  The test for a missing asset bears on the requested
    path only: the walk reads every path it is called on by plain
    subscript, and raises [KeyError] on one that is no key.  So, in
    production mode, for an entry that reaches an import that is no key and
    reaches no cycle, [generate_vite_asset] raises, for every fuel above
    the number of entries, the [KeyError] of a path that is no key, which
    is none of the module's three errors; with or without a cycle it
    returns for no fuel.  When every import in reach of the entry is a key,
    it raises nothing. *)
Theorem unguarded_import_lookup (m : Manifest) (path : string)
    (e : ManifestEntry) (kwargs : dict string) :
  DJANGO_VITE_DEV_MODE settings = false ->
  dict_get m path = Some e ->
  (forall fuel p ap,
     dict_in p m = false ->
     _generate_css_files_of_asset (S fuel) (ldr m) p ap = Raise (KeyError p))
  /\ (dangling_reachable m path -> ~ cycle_reachable m path ->
      exists r,
        dict_in r m = false
        /\ (forall fuel, length m < fuel ->
              generate_vite_asset (ldr m) fuel path kwargs = Raise (KeyError r))
        /\ (forall p error,
              KeyError r <> AssetNotFoundError p
              /\ KeyError r <> PolyfillNotFoundError
              /\ KeyError r <> ManifestLoadError error))
  /\ (dangling_reachable m path ->
      forall fuel s, generate_vite_asset (ldr m) fuel path kwargs <> Return s)
  /\ (imports_closed m path ->
      forall fuel err, generate_vite_asset (ldr m) fuel path kwargs <> Raise err).
Proof.
  intros Hprod He.
  assert (Hp : dict_in path m = true) by (unfold dict_in; now rewrite He).
  split; [|split; [|split]].
  - intros fuel p ap Hnokey. rewrite walk_unfold. unfold dict_in in Hnokey.
    now destruct (dict_get m p).
  - intros Hdang Hacyc.
    destruct (walk_answer m path [] Hacyc) as (r & Hr & Hfuel).
    destruct r as [x|e0|]; [| |congruence].
    + exfalso.
      exact (walk_dangling_no_return m path Hdang _ _ _
               (Hfuel _ (Nat.lt_succ_diag_r _))).
    + destruct (walk_raise _ _ _ _ _ (Hfuel _ (Nat.lt_succ_diag_r _)))
        as (r & -> & Hnokey & _).
      exists r. split; [exact Hnokey|]. split.
      * intros fuel Hlt.
        rewrite (generate_vite_asset_production m fuel path kwargs e Hprod He).
        now rewrite (Hfuel fuel Hlt).
      * intros p error. repeat split; discriminate.
  - intros Hdang fuel s.
    rewrite (generate_vite_asset_production m fuel path kwargs e Hprod He).
    destruct (_generate_css_files_of_asset fuel (ldr m) path [])
      as [x|e0|] eqn:E; simpl; try discriminate.
    exfalso. exact (walk_dangling_no_return m path Hdang _ _ _ E).
  - intros Hclosed fuel err Hraise.
    destruct (generate_vite_asset_raise _ _ _ _ _ Hprod Hp Hraise) as (Hw & _).
    exact (walk_closed_no_raise m path Hp Hclosed _ _ _ Hw).
Qed.

End Loader.

(** ** Checking a manifest *)

Lemma dict_get_In {V : Type} (d : dict V) (k : string) (v : V) :
  dict_get d k = Some v -> In (k, v) d.
Proof.
  induction d as [|[k' v'] d IH]; simpl; [discriminate|].
  destruct (String.eqb_spec k' k) as [->|_].
  - intros H. inversion H; subst. now left.
  - intros H. right. now apply IH.
Qed.

Lemma imports_edge_entry (m : Manifest) (p q : string) :
  imports_edge m p q ->
  exists e, In (p, e) m /\ In q (opt_list (imports e)).
Proof.
  unfold imports_edge, imports_of.
  destruct (dict_get m p) as [e|] eqn:E; [|intros []].
  intros Hq. exists e. split; [now apply dict_get_In | exact Hq].
Qed.

Lemma all_imports_keys_closed (m : Manifest) :
  all_imports_keys m = true -> forall p, imports_closed m p.
Proof.
  unfold all_imports_keys. rewrite forallb_forall.
  intros Hall p q r _ Hedge.
  destruct (imports_edge_entry m q r Hedge) as (e & Hin & Hr).
  specialize (Hall _ Hin). simpl in Hall. rewrite forallb_forall in Hall.
  now apply Hall.
Qed.

Lemma ranked_acyclic (rank : string -> nat) (m : Manifest) :
  ranked rank m = true -> acyclic m.
Proof.
  unfold ranked. rewrite forallb_forall. intros Hall.
  assert (Hedge : forall p q, imports_edge m p q -> rank q < rank p).
  { intros p q Hpq. destruct (imports_edge_entry m p q Hpq) as (e & Hin & Hq).
    specialize (Hall _ Hin). simpl in Hall. rewrite forallb_forall in Hall.
    apply Nat.ltb_lt. now apply Hall. }
  assert (Hreach : forall p q, reaches m p q -> rank q <= rank p).
  { induction 1 as [|p q0 q Hpq _ IH]; [lia|].
    specialize (Hedge _ _ Hpq). lia. }
  intros q (q' & Hqq' & Hback).
  specialize (Hedge _ _ Hqq'). specialize (Hreach _ _ Hback). lia.
Qed.

(** ** Closed examples *)

Lemma diamond_checked :
  all_imports_keys diamond_manifest = true
  /\ ranked sample_rank diamond_manifest = true.
Proof. split; reflexivity. Qed.

(** C1, on [diamond_manifest]: four [<link>] tags, then the script tag. *)
Lemma generate_vite_asset_tags_diamond :
  exists links,
    NoDup links
    /\ forall fuel, 3 < fuel ->
         generate_vite_asset production built_host
           (mkLoader (Some diamond_manifest)) fuel "a.js" [("defer", "defer")]
         = Return
             (join NL
                (map (css_tag production built_host) links
                 ++ [_generate_script_tag "/static/assets/a.1.js"
                       [("type", "module"); ("crossorigin", EmptyString);
                        ("defer", "defer")]])).
Proof.
  destruct (generate_vite_asset_tags production built_host diamond_manifest
              "a.js" [("defer", "defer")]
              (entry "assets/a.1.js" (Some ["b.js"; "c.js"]) (Some ["a.css"]))
              eq_refl eq_refl
              (all_imports_keys_closed diamond_manifest eq_refl "a.js")
              (acyclic_no_cycle_reachable diamond_manifest "a.js"
                 (ranked_acyclic sample_rank diamond_manifest eq_refl)))
    as (links & Hnd & Hgen & _).
  exists links. split; [exact Hnd | exact Hgen].
Defined.

(** C1, as stated, fails on [dangling_manifest]: [a.js] is a key, and the
    call raises the [KeyError] of its import instead of returning tags. *)
Lemma generate_vite_asset_dangling_import :
  dict_in "a.js" dangling_manifest = true
  /\ generate_vite_asset production built_host
       (mkLoader (Some dangling_manifest)) 2 "a.js" []
     = Raise (KeyError "missing.js")
  /\ forall fuel s,
       generate_vite_asset production built_host
         (mkLoader (Some dangling_manifest)) fuel "a.js" [] <> Return s.
Proof.
  split; [reflexivity|]. split; [reflexivity|].
  intros fuel s. destruct fuel as [|[|n]]; discriminate.
Qed.

(** C2, on [diamond_manifest]: [x.css] is listed by both imports of [a.js]
    and gets one tag. *)
Lemma css_files_emitted_once_diamond :
  exists links,
    [css_tag production built_host "x.css"; css_tag production built_host "b.css";
     css_tag production built_host "c.css"; css_tag production built_host "a.css"]
    = map (css_tag production built_host) links
    /\ fresh_run [] links ["x.css"; "b.css"; "x.css"; "c.css"; "a.css"].
Proof.
  exact (proj1 (css_files_emitted_once production built_host)
           diamond_manifest 2 "a.js" [] _ _ eq_refl).
Defined.


(** C4, on [main.js]: the tag of the specification's example, with no
    loader and no fuel. *)
Lemma generate_vite_asset_dev_main :
  generate_vite_asset development broken_host (mkLoader None) 0 "main.js" []
  = Return ("<script type=" +:+ DQ +:+ "module" +:+ DQ +:+ " src=" +:+ DQ
            +:+ "http://localhost:3000/static/main.js" +:+ DQ +:+ "></script>")
  /\ snd (vite_asset development broken_host 0 "main.js" [] None)
     = Some (mkLoader None)
  /\ dev_server_url development broken_host "main.js"
     = "http://localhost:3000" +:+ "/static/" +:+ "main.js".
Proof.
  destruct (generate_vite_asset_dev development broken_host (mkLoader None) 0
              "main.js" [] eq_refl ltac:(discriminate))
    as (Hgen & _ & _ & _ & Htag & _ & _ & Hform).
  split; [exact Hgen|]. split; [now rewrite Htag|].
  exact (Hform eq_refl eq_refl).
Defined.

(** C4, as stated, fails on the path [/main.js]: a reference that starts
    with [/] replaces the static URL, so the [src] is the origin followed
    by the path alone.  It also fails on settings with no static URL,
    where the call raises instead of returning a tag. *)
Lemma dev_url_without_static_prefix :
  generate_vite_asset development rooted_host (mkLoader None) 0 "/main.js" []
  = Return (_generate_script_tag "http://localhost:3000/main.js"
              [("type", "module")])
  /\ "http://localhost:3000/main.js"
     <> "http://localhost:3000" +:+ "/static/" +:+ "/main.js"
  /\ "http://localhost:3000/main.js"
     <> "http://localhost:3000" +:+ "/static/" +:+ "main.js"
  /\ generate_vite_asset unset_static_settings rooted_host (mkLoader None) 0
       "main.js" []
     = Raise IndexError.
Proof.
  split; [reflexivity|].
  split; [apply String.eqb_neq; reflexivity|].
  split; [apply String.eqb_neq; reflexivity | reflexivity].
Qed.

(** C5, on [diamond_manifest]: the error for a path that is no key, the
    URL alone for one that is. *)
Lemma asset_not_found_iff_diamond :
  generate_vite_asset_url production built_host
    (mkLoader (Some diamond_manifest)) "missing.js"
  = Raise (AssetNotFoundError production "missing.js")
  /\ generate_vite_asset_url production built_host
       (mkLoader (Some diamond_manifest)) "a.js"
     = Return "/static/assets/a.1.js".
Proof.
  split.
  - apply (proj1 (proj2 (asset_not_found_iff production built_host
                           diamond_manifest "missing.js" eq_refl))).
    reflexivity.
  - exact (proj1 (proj2 (proj2 (proj2
             (asset_not_found_iff production built_host diamond_manifest "a.js"
                eq_refl))) _ eq_refl)).
Defined.

(** C5, as stated, fails on [deep_dangling_manifest]: [main.js] is a key,
    and [generate_vite_asset] raises all the same. *)
Lemma asset_present_yet_raises :
  dict_in "main.js" deep_dangling_manifest = true
  /\ generate_vite_asset production built_host
       (mkLoader (Some deep_dangling_manifest)) 3 "main.js" []
     = Raise (KeyError "gone.js").
Proof. split; reflexivity. Qed.

(** X14, on [legacy_manifest]: two keys contain the motif, the first one
    gives the tag. *)
Lemma legacy_polyfills_tags_first :
  generate_vite_legacy_polyfills production built_host
    (mkLoader (Some legacy_manifest)) [("defer", "defer")]
  = Return (_generate_script_tag "/static/assets/polyfills-legacy.2.js"
              [("nomodule", EmptyString); ("crossorigin", EmptyString);
               ("defer", "defer")]).
Proof.
  refine (proj1 (proj2 (legacy_polyfills_tags production built_host) eq_refl
                   legacy_manifest [("defer", "defer")])
            [("main.js", entry "assets/main.1.js" None None)]
            "vite/legacy-polyfills"
            (entry "assets/polyfills-legacy.2.js" None None)
            [("other/legacy-polyfills", entry "assets/other.3.js" None None)]
            eq_refl _ _).
  - intros k v [H|[]] Hocc. inversion H; subst.
    apply (str_contains_iff "legacy-polyfills" "main.js") in Hocc.
    discriminate.
  - exists "vite/", EmptyString. reflexivity.
Defined.

(** C6, where the code departs from it: in production mode, on a host
    whose manifest file is no JSON, the first call of the polyfills tag
    raises the error of the manifest that cannot be read, and the second
    reaches [generate_vite_legacy_polyfills] on the loader the first one
    left, which holds no manifest; it raises [AttributeError], which is not
    the error of missing polyfills.  The legacy tag of a path, in the same
    state, raises the error of a missing asset. *)
Lemma polyfills_after_failed_load :
  twice (vite_legacy_polyfills production unparsed_host []) None
  = (Raise (ManifestLoadError production "Expecting value"),
     Raise AttributeError)
  /\ AttributeError <> PolyfillNotFoundError production
  /\ twice (vite_legacy_asset production unparsed_host "main.js" []) None
     = (Raise (ManifestLoadError production "Expecting value"),
        Raise (AssetNotFoundError production "main.js")).
Proof.
  split; [reflexivity|]. split; [discriminate | reflexivity].
Qed.

(** C7, on a host whose manifest file cannot be read, and on one where it
    can. *)
Lemma instance_manifest_load_sample :
  instance production broken_host None
  = (Raise (ManifestLoadError production "No such file or directory"),
     Some (mkLoader None))
  /\ instance production built_host None
     = (Return (mkLoader (Some diamond_manifest)),
        Some (mkLoader (Some diamond_manifest))).
Proof.
  split.
  - apply (proj1 (instance_manifest_load production broken_host eq_refl)).
    left. reflexivity.
  - apply (proj1 (proj2 (instance_manifest_load production built_host eq_refl))).
    eexists. split; reflexivity.
Defined.

(** C7, as stated, fails on a host whose manifest file cannot be read: the
    call after the failed one returns a loader, and that loader holds no
    manifest. *)
Lemma instance_keeps_failed_loader :
  exists st,
    instance production broken_host None
    = (Raise (ManifestLoadError production "No such file or directory"), st)
    /\ instance production broken_host st = (Return (mkLoader None), st)
    /\ generate_vite_legacy_polyfills production broken_host (mkLoader None) []
       = Raise AttributeError.
Proof. exists (Some (mkLoader None)). repeat split. Qed.

(** C8, from a class with no loader yet and a store where an earlier call
    left a list naming [x.css]: both calls give the four [<link>] tags and
    the script tag, and the list left is as it was. *)
Lemma tags_twice_same_output_sample :
  let w := mkWorld None [["x.css"; "a.css"]] in
  let r := generate_vite_asset production built_host
             (mkLoader (Some diamond_manifest)) 4 "a.js" [] in
  twice (vite_asset_st production built_host 4 "a.js" []) w = (r, r)
  /\ h_read 0 (w_lists (snd (vite_asset_st production built_host 4 "a.js" [] w)))
     = ["x.css"; "a.css"].
Proof.
  destruct (proj1 (tags_twice_same_output production built_host
                     (mkWorld None [["x.css"; "a.css"]])
                     (mkLoader (Some diamond_manifest)) eq_refl)
              4 "a.js" []) as (Htwice & _ & _ & Hkeep).
  split; [exact Htwice | exact (Hkeep 0 (Nat.lt_0_succ 0))].
Defined.

Lemma cyclic_manifest_cycle : cycle_reachable cyclic_manifest "a.js".
Proof.
  exists "a.js". split; [constructor|]. exists "a.js".
  split; [now left | constructor].
Qed.

(** C9, on [diamond_manifest], which has no cycle, and on
    [cyclic_manifest], where [a.js] imports itself. *)
Lemma css_walk_termination_sample :
  (exists r, r <> OutOfFuel
             /\ forall fuel, 3 < fuel ->
                  _generate_css_files_of_asset production built_host fuel
                    (mkLoader (Some diamond_manifest)) "a.js" [] = r)
  /\ (forall fuel,
        _generate_css_files_of_asset production built_host fuel
          (mkLoader (Some cyclic_manifest)) "a.js" [] = OutOfFuel).
Proof.
  split.
  - exact (proj1 (proj1 (css_walk_termination production built_host
                           diamond_manifest)
                    (ranked_acyclic sample_rank diamond_manifest eq_refl))
             "a.js" []).
  - intros fuel.
    exact (proj1 (proj2 (proj2 (css_walk_termination production built_host
                                  cyclic_manifest)
                           "a.js" cyclic_manifest_cycle))
             (all_imports_keys_closed cyclic_manifest eq_refl "a.js") fuel []).
Defined.

(** C9, as stated, fails on [dangling_then_cycle_manifest]: [a.js] is on a
    cycle, and the walk ends, by raising, for every fuel above one. *)
Lemma cycle_reached_yet_terminates :
  cycle_reachable dangling_then_cycle_manifest "a.js"
  /\ forall fuel, 1 < fuel ->
       _generate_css_files_of_asset production built_host fuel
         (mkLoader (Some dangling_then_cycle_manifest)) "a.js" []
       = Raise (KeyError "missing.js").
Proof.
  split.
  - exists "a.js". split; [constructor|]. exists "a.js".
    split; [right; now left | constructor].
  - intros fuel Hfuel. apply (walk_mono production built_host 2);
      [lia | reflexivity | discriminate].
Qed.

Lemma dangling_manifest_dangling : dangling_reachable dangling_manifest "a.js".
Proof.
  exists "a.js", "missing.js". split; [constructor|].
  split; [now left | reflexivity].
Qed.

(** C10, on [dangling_manifest]: the [KeyError] of the import. *)
Lemma unguarded_import_lookup_sample :
  exists r,
    dict_in r dangling_manifest = false
    /\ forall fuel, 1 < fuel ->
         generate_vite_asset production built_host
           (mkLoader (Some dangling_manifest)) fuel "a.js" []
         = Raise (KeyError r).
Proof.
  destruct (proj1 (proj2 (unguarded_import_lookup production built_host
                            dangling_manifest "a.js"
                            (entry "assets/a.1.js" (Some ["missing.js"]) None) []
                            eq_refl eq_refl))
              dangling_manifest_dangling
              (acyclic_no_cycle_reachable dangling_manifest "a.js"
                 (ranked_acyclic sample_rank dangling_manifest eq_refl)))
    as (r & Hr & Hfuel & _).
  exists r. split; [exact Hr | exact Hfuel].
Defined.

(** C10, as stated, fails on [cycle_then_dangling_manifest]: [a.js] is a
    key and names an import that is no key, and the call raises nothing:
    the recursion on [a.js] itself comes first and has no end. *)
Lemma dangling_import_never_looked_up :
  dict_in "a.js" cycle_then_dangling_manifest = true
  /\ dangling_reachable cycle_then_dangling_manifest "a.js"
  /\ forall fuel,
       generate_vite_asset production built_host
         (mkLoader (Some cycle_then_dangling_manifest)) fuel "a.js" []
       = OutOfFuel.
Proof.
  split; [reflexivity|]. split.
  - exists "a.js", "missing.js". split; [constructor|].
    split; [right; now left | reflexivity].
  - assert (Hwalk : forall fuel ap,
               _generate_css_files_of_asset production built_host fuel
                 (mkLoader (Some cycle_then_dangling_manifest)) "a.js" ap
               = OutOfFuel).
    { induction fuel as [|fuel IH]; intros ap; [reflexivity|].
      rewrite walk_unfold.
      change (dict_get cycle_then_dangling_manifest "a.js")
        with (Some (mkEntry "assets/a.1.js" (Some ["a.js"; "missing.js"]) None)).
      cbn [imports opt_list imports_loop]. now rewrite IH. }
    intros fuel.
    rewrite (generate_vite_asset_production production built_host
               cycle_then_dangling_manifest fuel "a.js" [] _ eq_refl eq_refl).
    now rewrite Hwalk.
Qed.

(** * Further properties of the loader *)

(** ** Merged attributes *)

Lemma dict_update_cons {V : Type} (d kw : dict V) (k : string) (v : V) :
  dict_update d ((k, v) :: kw) = dict_update (dict_set d k v) kw.
Proof. reflexivity. Qed.

Lemma nodup_app_disjoint (l1 l2 : list string) :
  NoDup l1 -> NoDup l2 -> (forall x, In x l2 -> ~ In x l1) -> NoDup (l1 ++ l2).
Proof.
  intros H1 H2 Hdis. induction l1 as [|x l1 IH]; [exact H2|].
  simpl. inversion H1; subst. constructor.
  - intros H. apply in_app_or in H. destruct H as [H|H]; [auto|].
    apply (Hdis x H). now left.
  - apply IH; auto. intros y Hy Hin. apply (Hdis y Hy). now right.
Qed.

(** X1.  Merging the caller's attributes into the defaults keeps every
    default key at its place; the keys the caller adds come after them, each
    once, and the merged dict has no key twice. *)
Theorem dict_update_keys {V : Type} (d kw : dict V) :
  exists extra,
    dict_keys (dict_update d kw) = dict_keys d ++ extra
    /\ NoDup extra
    /\ (forall k, In k extra <-> In k (dict_keys kw) /\ ~ In k (dict_keys d))
    /\ (is_dict d -> is_dict (dict_update d kw)).
Proof.
  assert (Hmain : forall (kw d : dict V), exists extra,
             dict_keys (dict_update d kw) = dict_keys d ++ extra
             /\ NoDup extra
             /\ (forall k, In k extra
                           <-> In k (dict_keys kw) /\ ~ In k (dict_keys d))).
  { clear d kw. induction kw as [|[k v] kw IH]; intros d.
    - exists []. simpl. rewrite app_nil_r.
      split; [reflexivity|]. split; [constructor|]. intros k. tauto.
    - rewrite dict_update_cons.
      destruct (IH (dict_set d k v)) as (extra & Hkeys & Hnd & Hin).
      rewrite dict_set_keys in Hkeys, Hin.
      destruct (dict_in k d) eqn:Hk.
      + apply dict_in_iff_keys in Hk. exists extra.
        split; [exact Hkeys|]. split; [exact Hnd|].
        intros x. rewrite Hin. simpl. split.
        * intros [H1 H2]. auto.
        * intros [[<-|H1] H2]; [contradiction | auto].
      + assert (Hk' : ~ In k (dict_keys d)).
        { intros H. apply dict_in_iff_keys in H. congruence. }
        exists (k :: extra). split; [|split].
        * rewrite Hkeys, <- app_assoc. reflexivity.
        * constructor; [|exact Hnd]. intros H. apply Hin in H.
          destruct H as [_ H]. apply H. apply in_or_app. right. now left.
        * intros x. simpl. rewrite Hin. split.
          -- intros [<-|[H1 H2]]; [auto|]. split; [auto|].
             intros H. apply H2. apply in_or_app. now left.
          -- intros [[<-|H1] H2]; [auto|].
             destruct (string_dec k x) as [->|Hne]; [auto|]. right.
             split; [exact H1|]. intros H. apply in_app_or in H.
             destruct H as [H|[H|[]]]; [auto | congruence]. }
  destruct (Hmain kw d) as (extra & Hkeys & Hnd & Hin).
  exists extra. split; [exact Hkeys|]. split; [exact Hnd|].
  split; [exact Hin|].
  unfold is_dict. intros Hd. rewrite Hkeys. apply nodup_app_disjoint; auto.
  intros x Hx. now apply Hin.
Qed.

(** ** The walk as a traversal followed by the removal of repetitions *)

Lemma css_new_app (l1 l2 ap : list string) :
  css_new (l1 ++ l2) ap = css_new l1 ap ++ css_new l2 (ap ++ l1).
Proof.
  revert ap. induction l1 as [|c l1 IH]; intros ap; simpl.
  - now rewrite app_nil_r.
  - rewrite IH, <- !app_assoc. reflexivity.
Qed.

Lemma css_new_in_iff (l ap : list string) (c : string) :
  In c (css_new l ap) <-> In c l /\ ~ In c ap.
Proof.
  split; [apply css_new_spec|].
  revert ap. induction l as [|c0 l IH]; intros ap [Hin Hap]; [destruct Hin|].
  simpl. apply in_or_app.
  destruct (string_dec c0 c) as [->|Hne].
  - left. apply list_in_false_iff in Hap. rewrite Hap. now left.
  - right. apply IH. destruct Hin as [H|H]; [congruence|].
    split; [exact H|]. intros H'. apply in_app_or in H'.
    destruct H' as [H'|[H'|[]]]; [auto | congruence].
Qed.

Lemma css_new_processed (l ap : list string) :
  incl l ap -> css_new l ap = [].
Proof.
  intros Hincl. destruct (css_new l ap) as [|c l'] eqn:E; [reflexivity|].
  assert (Hc : In c (css_new l ap)) by (rewrite E; now left).
  apply css_new_in_iff in Hc. destruct Hc as [H1 H2]. exfalso. auto.
Qed.

Lemma imports_loop_factors (tag : string -> string)
    (rec : string -> list string -> outcome (list string * list string))
    (vrec : string -> outcome (list string)) :
  (forall q ap,
     rec q ap = (s <- vrec q ;; Return (map tag (css_new s ap), ap ++ s))) ->
  forall l tags ap,
    imports_loop rec l tags ap
    = (s <- visited_loop vrec l ;;
       Return (tags ++ map tag (css_new s ap), ap ++ s)).
Proof.
  intros Hrec l. induction l as [|q l IH]; intros tags ap; simpl.
  - now rewrite !app_nil_r.
  - rewrite Hrec. destruct (vrec q) as [s1| |]; simpl; try reflexivity.
    rewrite IH. destruct (visited_loop vrec l) as [s2| |]; simpl;
      try reflexivity.
    now rewrite css_new_app, map_app, <- !app_assoc.
Qed.

Lemma visited_loop_each (rec : string -> outcome (list string))
    (l s : list string) :
  visited_loop rec l = Return s ->
  (forall q, In q l -> exists sq, rec q = Return sq /\ incl sq s)
  /\ (forall c, In c s -> exists q sq, In q l /\ rec q = Return sq /\ In c sq).
Proof.
  revert s. induction l as [|q0 l IH]; intros s; simpl.
  - intros H. inversion H; subst. split; [intros q [] | intros c []].
  - destruct (rec q0) as [s1| |] eqn:E1; simpl; try discriminate.
    destruct (visited_loop rec l) as [s2| |] eqn:E2; simpl; try discriminate.
    intros H. inversion H; subst. destruct (IH s2 eq_refl) as [IH1 IH2].
    split.
    + intros q [<-|Hq].
      * exists s1. split; [exact E1 | now apply incl_appl, incl_refl].
      * destruct (IH1 q Hq) as (sq & Hsq & Hincl). exists sq.
        split; [exact Hsq | now apply incl_appr].
    + intros c Hc. apply in_app_or in Hc. destruct Hc as [Hc|Hc].
      * exists q0, s1. auto.
      * destruct (IH2 c Hc) as (q & sq & Hq & Hsq & Hin). exists q, sq. auto.
Qed.

(** The traversal meets nothing but CSS paths of entries in reach. *)
Lemma visited_css_sound (m : Manifest) (fuel : nat) :
  forall p s,
    visited_css fuel m p = Return s ->
    forall c, In c s -> exists q, reaches m p q /\ In c (css_of m q).
Proof.
  induction fuel as [|fuel IH]; intros p s; [discriminate|]. simpl.
  destruct (dict_get m p) as [e|] eqn:He; [|discriminate].
  destruct (visited_loop (visited_css fuel m) (opt_list (imports e)))
    as [s1| |] eqn:El; simpl; try discriminate.
  intros H c Hc. inversion H; subst. apply in_app_or in Hc.
  destruct Hc as [Hc|Hc].
  - destruct (proj2 (visited_loop_each _ _ _ El) c Hc)
      as (q & sq & Hq & Hsq & Hin).
    destruct (IH _ _ Hsq c Hin) as (q' & Hreach & Hcss).
    exists q'. split; [|exact Hcss].
    eapply reaches_step; [|exact Hreach].
    unfold imports_edge, imports_of. now rewrite He.
  - exists p. split; [constructor|]. unfold css_of. now rewrite He.
Qed.

(** The traversal meets every CSS path of every entry in reach. *)
Lemma visited_css_complete (m : Manifest) (p q : string) :
  reaches m p q ->
  forall fuel s,
    visited_css fuel m p = Return s ->
    forall c, In c (css_of m q) -> In c s.
Proof.
  induction 1 as [p|p q0 q Hedge _ IH]; intros fuel s;
    (destruct fuel as [|fuel]; [discriminate|]); simpl;
    destruct (dict_get m p) as [e|] eqn:He; try discriminate;
    destruct (visited_loop (visited_css fuel m) (opt_list (imports e)))
      as [s1| |] eqn:El; simpl; try discriminate;
    intros H c Hc; inversion H; subst; apply in_or_app.
  - right. unfold css_of in Hc. now rewrite He in Hc.
  - left. unfold imports_edge, imports_of in Hedge. rewrite He in Hedge.
    destruct (proj1 (visited_loop_each _ _ _ El) q0 Hedge)
      as (sq & Hsq & Hincl).
    apply Hincl. exact (IH _ _ Hsq c Hc).
Qed.

Section LoaderFacts.

Variable settings : Settings.
Variable host : Host.

(** The walk, step by step, is the traversal with the repetitions taken
    out. *)
Lemma walk_factors (m : Manifest) (fuel : nat) (path : string)
    (already_processed : list string) :
  _generate_css_files_of_asset settings host fuel (mkLoader (Some m)) path
    already_processed
  = (s <- visited_css fuel m path ;;
     Return (map (css_tag settings host) (css_new s already_processed),
             already_processed ++ s)).
Proof.
  revert path already_processed.
  induction fuel as [|fuel IH]; intros p ap; [reflexivity|].
  rewrite walk_unfold. simpl.
  destruct (dict_get m p) as [e|]; [|reflexivity].
  rewrite (imports_loop_factors (css_tag settings host) _
             (visited_css fuel m) IH).
  destruct (visited_loop (visited_css fuel m) (opt_list (imports e)))
    as [s| |]; simpl; try reflexivity.
  now rewrite css_loop_eq, css_new_app, map_app, <- app_assoc.
Qed.

(** X2.  The walk is the traversal, which no list of processed paths
    influences, followed by the removal of repetitions: it hands back the
    list it was given with the CSS paths met appended in the order of the
    traversal, and its tags are those of the paths met for the first time.
    It returns, raises or runs out of fuel exactly as the traversal does. *)
Theorem css_walk_factors (m : Manifest) (fuel : nat) (path : string)
    (already_processed : list string) :
  _generate_css_files_of_asset settings host fuel (mkLoader (Some m)) path
    already_processed
  = (s <- visited_css fuel m path ;;
     Return (map (css_tag settings host) (css_new s already_processed),
             already_processed ++ s))
  /\ forall other,
       match
         _generate_css_files_of_asset settings host fuel (mkLoader (Some m))
           path already_processed,
         _generate_css_files_of_asset settings host fuel (mkLoader (Some m))
           path other
       with
       | Return (_, ap1), Return (_, ap2) =>
           exists s, ap1 = already_processed ++ s /\ ap2 = other ++ s
       | Raise e1, Raise e2 => e1 = e2
       | OutOfFuel, OutOfFuel => True
       | _, _ => False
       end.
Proof.
  split; [apply walk_factors|].
  intros other. rewrite !walk_factors.
  destruct (visited_css fuel m path) as [s|e|]; simpl; eauto.
Qed.

(** X3.  A walk that returns gives a tag to a CSS path exactly when the
    path was not among the processed ones it was handed and some entry in
    reach of the requested one, that entry included, lists it; no path gets
    two tags. *)
Theorem css_walk_collects (m : Manifest) (fuel : nat) (path : string)
    (already_processed tags ap' : list string) :
  _generate_css_files_of_asset settings host fuel (mkLoader (Some m)) path
    already_processed = Return (tags, ap') ->
  exists links,
    tags = map (css_tag settings host) links
    /\ NoDup links
    /\ forall c,
         In c links
         <-> (~ In c already_processed
              /\ exists q, reaches m path q /\ In c (css_of m q)).
Proof.
  rewrite walk_factors.
  destruct (visited_css fuel m path) as [s| |] eqn:Es; simpl; try discriminate.
  intros H. inversion H; subst.
  exists (css_new s already_processed). split; [reflexivity|].
  split; [apply css_new_spec|].
  intros c. rewrite css_new_in_iff. split.
  - intros [Hs Hap]. split; [exact Hap|].
    exact (visited_css_sound m fuel _ _ Es c Hs).
  - intros [Hap (q & Hreach & Hcss)]. split; [|exact Hap].
    exact (visited_css_complete m path q Hreach _ _ Es c Hcss).
Qed.

(** X4.  A walk run again on the list of processed paths that a first walk
    of the same entry handed back returns no tag at all. *)
Theorem css_walk_again (m : Manifest) (fuel : nat) (path : string)
    (already_processed tags ap' : list string) :
  _generate_css_files_of_asset settings host fuel (mkLoader (Some m)) path
    already_processed = Return (tags, ap') ->
  exists ap'',
    _generate_css_files_of_asset settings host fuel (mkLoader (Some m)) path ap'
    = Return ([], ap'').
Proof.
  rewrite !walk_factors.
  destruct (visited_css fuel m path) as [s| |]; simpl; try discriminate.
  intros H. inversion H; subst. eexists.
  rewrite css_new_processed; [reflexivity|].
  now apply incl_appr, incl_refl.
Qed.

(** ** How the operations agree *)

(** X5.  Whatever the mode, when [generate_vite_asset] returns, the [src]
    of its script tag is what [generate_vite_asset_url] returns for the
    same path, and in development mode the script tag is all it returns.
    In production mode [generate_vite_legacy_asset] is the script tag, with
    the legacy attributes, around what [generate_vite_asset_url] answers:
    it raises whenever that one does. *)
Theorem asset_tag_src_is_asset_url :
  (forall self fuel path kwargs s,
     generate_vite_asset settings host self fuel path kwargs = Return s ->
     exists u links,
       generate_vite_asset_url settings host self path = Return u
       /\ s = join NL
                (map (css_tag settings host) links
                 ++ [_generate_script_tag u
                       (dict_update
                          (if DJANGO_VITE_DEV_MODE settings
                           then [("type", "module")]
                           else [("type", "module"); ("crossorigin", EmptyString)])
                          kwargs)])
       /\ (DJANGO_VITE_DEV_MODE settings = true -> links = []))
  /\ (DJANGO_VITE_DEV_MODE settings = false ->
      forall self path kwargs,
        generate_vite_legacy_asset settings host self path kwargs
        = (u <- generate_vite_asset_url settings host self path ;;
           Return (_generate_script_tag u
                     (dict_update
                        [("nomodule", EmptyString); ("crossorigin", EmptyString)]
                        kwargs)))).
Proof.
  split.
  - intros self fuel path kwargs s.
    destruct (DJANGO_VITE_DEV_MODE settings) eqn:Hmode.
    + unfold generate_vite_asset, generate_vite_asset_url. rewrite Hmode.
      destruct (_generate_vite_server_url settings host path) as [u| |];
        simpl; try discriminate.
      intros H. inversion H; subst. exists u, []. auto.
    + destruct self as [[m|]].
      * destruct (dict_get m path) as [e|] eqn:He.
        -- rewrite (generate_vite_asset_production settings host m fuel path
                      kwargs e Hmode He).
           destruct (_generate_css_files_of_asset settings host fuel
                       (mkLoader (Some m)) path []) as [[tags ap']| |] eqn:E;
             simpl; try discriminate.
           destruct (walk_emits settings host m _ _ _ _ _ E)
             as (links & -> & _).
           intros H. inversion H; subst.
           exists (_generate_production_server_url settings host (file e)), links.
           rewrite (generate_vite_asset_url_production settings host m path Hmode), He.
           repeat split. discriminate.
        -- rewrite generate_vite_asset_absent; [discriminate | exact Hmode|].
           rewrite manifest_lacks_iff. unfold dict_in. now rewrite He.
      * rewrite generate_vite_asset_absent; [discriminate | exact Hmode|].
        reflexivity.
  - intros Hmode self path kwargs.
    unfold generate_vite_legacy_asset, generate_vite_asset_url. rewrite Hmode.
    destruct (manifest_lacks self path); [reflexivity|].
    now destruct (manifest_getitem self path).
Qed.

(** X6.  In production mode the polyfills tag is the legacy tag of one key:
    the first key, in the order of the manifest, that contains the motif. *)
Theorem polyfills_is_legacy_asset (m before after : Manifest) (key : string)
    (content : ManifestEntry) (kwargs : dict string) :
  DJANGO_VITE_DEV_MODE settings = false ->
  m = before ++ (key, content) :: after ->
  (forall k v, In (k, v) before ->
     str_contains (DJANGO_VITE_LEGACY_POLYFILLS_MOTIF settings) k = false) ->
  str_contains (DJANGO_VITE_LEGACY_POLYFILLS_MOTIF settings) key = true ->
  generate_vite_legacy_polyfills settings host (mkLoader (Some m)) kwargs
  = generate_vite_legacy_asset settings host (mkLoader (Some m)) key kwargs.
Proof.
  intros Hmode -> Hbefore Hkey.
  rewrite (generate_vite_legacy_asset_production settings host _ key kwargs Hmode).
  assert (Hget : dict_get (before ++ (key, content) :: after) key = Some content).
  { clear Hmode. induction before as [|[k v] before IH]; simpl.
    - now rewrite String.eqb_refl.
    - destruct (String.eqb_spec k key) as [->|_].
      + rewrite (Hbefore key v) in Hkey by now left. discriminate.
      + apply IH. intros k' v' Hin. apply (Hbefore k' v'). now right. }
  rewrite Hget. unfold generate_vite_legacy_polyfills. rewrite Hmode.
  cbn [_manifest]. now apply polyfills_loop_first.
Qed.

(** X7.  With an empty polyfills motif, which every key contains, the
    polyfills tag is that of the first entry of the manifest, whatever its
    key; only an empty manifest gives the error of missing polyfills. *)
Theorem polyfills_empty_motif (kwargs : dict string) :
  DJANGO_VITE_DEV_MODE settings = false ->
  DJANGO_VITE_LEGACY_POLYFILLS_MOTIF settings = EmptyString ->
  (forall key content m,
     generate_vite_legacy_polyfills settings host
       (mkLoader (Some ((key, content) :: m))) kwargs
     = Return (_generate_script_tag
                 (_generate_production_server_url settings host (file content))
                 (dict_update
                    [("nomodule", EmptyString); ("crossorigin", EmptyString)]
                    kwargs)))
  /\ generate_vite_legacy_polyfills settings host (mkLoader (Some [])) kwargs
     = Raise (PolyfillNotFoundError settings).
Proof.
  intros Hmode Hmotif. unfold generate_vite_legacy_polyfills.
  rewrite Hmode. cbn [_manifest]. split; [|reflexivity].
  intros key content m. cbn [polyfills_loop]. rewrite Hmotif.
  now destruct key.
Qed.

(** X8.  In development mode the HMR client tag is the tag
    [generate_vite_asset] gives for the client path, whatever the loader
    and the fuel; in production mode the HMR client tag and the React
    refresh script are the empty text, whatever the configuration. *)
Theorem hmr_client_is_dev_asset_tag :
  (DJANGO_VITE_DEV_MODE settings = true ->
   forall self fuel kwargs,
     generate_vite_ws_client settings host kwargs
     = generate_vite_asset settings host self fuel
         (DJANGO_VITE_WS_CLIENT_URL settings) kwargs)
  /\ (DJANGO_VITE_DEV_MODE settings = false ->
      forall kwargs st,
        vite_hmr_client settings host kwargs st = (Return EmptyString, st)
        /\ vite_react_refresh settings host st = (Return EmptyString, st)).
Proof.
  split.
  - intros Hmode self fuel kwargs.
    unfold generate_vite_ws_client, generate_vite_asset. now rewrite Hmode.
  - intros Hmode kwargs st.
    unfold vite_hmr_client, vite_react_refresh, generate_vite_ws_client,
      generate_vite_react_refresh_url. now rewrite Hmode.
Qed.

(** ** Edge cases *)

(** X9.  In development mode, when the join of [STATIC_URL] and the prefix
    is the empty text, every operation that builds a development URL
    raises [IndexError], for every path and every attribute; the two legacy
    operations, which build none, still return the empty text. *)
Theorem empty_static_url_raises (self : DjangoViteAssetLoader) (fuel : nat)
    (path : string) (kwargs : dict string) :
  DJANGO_VITE_DEV_MODE settings = true ->
  urljoin host (STATIC_URL settings) (DJANGO_VITE_STATIC_URL_PREFIX settings)
  = EmptyString ->
  generate_vite_asset settings host self fuel path kwargs = Raise IndexError
  /\ generate_vite_asset_url settings host self path = Raise IndexError
  /\ generate_vite_ws_client settings host kwargs = Raise IndexError
  /\ generate_vite_react_refresh_url settings host = Raise IndexError
  /\ generate_vite_legacy_asset settings host self path kwargs
     = Return EmptyString
  /\ generate_vite_legacy_polyfills settings host self kwargs
     = Return EmptyString.
Proof.
  intros Hmode Hempty.
  unfold generate_vite_asset, generate_vite_asset_url, generate_vite_ws_client,
    generate_vite_react_refresh_url, generate_vite_legacy_asset,
    generate_vite_legacy_polyfills.
  rewrite Hmode, !(vite_server_url_empty settings host _ Hempty).
  repeat split.
Qed.

(** X10.  In production mode, an entry with no import and no CSS path of
    its own, the two fields absent or empty, gives the script tag alone: no
    [<link>] tag, no newline, and one level of recursion is enough. *)
Theorem leaf_entry_script_only (m : Manifest) (path : string)
    (e : ManifestEntry) (fuel : nat) (kwargs : dict string) :
  DJANGO_VITE_DEV_MODE settings = false ->
  dict_get m path = Some e ->
  opt_list (imports e) = [] ->
  opt_list (css e) = [] ->
  generate_vite_asset settings host (mkLoader (Some m)) (S fuel) path kwargs
  = Return (_generate_script_tag
              (_generate_production_server_url settings host (file e))
              (dict_update [("type", "module"); ("crossorigin", EmptyString)]
                 kwargs)).
Proof.
  intros Hmode He Hi Hc.
  rewrite (generate_vite_asset_production settings host m (S fuel) path kwargs
             e Hmode He).
  now rewrite walk_unfold, He, Hi, Hc.
Qed.

(** ** The singleton after its first call *)

(** X11.  After any call of [instance], failed or not, the class holds a
    loader; every later call returns that loader and leaves it in the
    class, however many calls follow, and a loader the class already held
    is the one that stays. *)
Theorem instance_singleton (st : option DjangoViteAssetLoader) :
  exists self,
    snd (instance settings host st) = Some self
    /\ (forall self0, st = Some self0 -> self = self0)
    /\ forall n,
         Nat.iter n (fun s => snd (instance settings host s)) (Some self)
         = Some self
         /\ instance settings host
              (Nat.iter n (fun s => snd (instance settings host s)) (Some self))
            = (Return self, Some self).
Proof.
  assert (Hiter : forall self n,
             Nat.iter n (fun s => snd (instance settings host s)) (Some self)
             = Some self).
  { intros self n. induction n as [|n IH]; [reflexivity|].
    simpl. now rewrite IH. }
  assert (Hex : exists self, snd (instance settings host st) = Some self
                             /\ forall self0, st = Some self0 -> self = self0).
  { destruct st as [self0|]; simpl.
    - exists self0. split; [reflexivity|]. intros ? H. now inversion H.
    - destruct (negb (DJANGO_VITE_DEV_MODE settings)).
      + destruct (_parse_manifest settings host (mkLoader None)) as [r self'].
        exists self'. split; [reflexivity | discriminate].
      + eexists. split; [reflexivity | discriminate]. }
  destruct Hex as (self & Hsnd & Hkeep). exists self.
  split; [exact Hsnd|]. split; [exact Hkeep|].
  intros n. rewrite Hiter. split; reflexivity.
Qed.

(** X12.  In production mode, when the manifest cannot be loaded, a tag
    called twice from a class with no loader answers differently the two
    times: the first call raises the error of the manifest that cannot be
    read; the second raises the error of a missing asset for the three
    tags that take a path, whatever the path, and [AttributeError] for the
    polyfills tag. *)
Theorem failed_load_then_retry (error : string) :
  DJANGO_VITE_DEV_MODE settings = false ->
  (read_text host (DJANGO_VITE_MANIFEST_PATH settings) = inr error
   \/ exists content,
        read_text host (DJANGO_VITE_MANIFEST_PATH settings) = inl content
        /\ json_loads host content = inr error) ->
  (forall fuel path kwargs,
     twice (vite_asset settings host fuel path kwargs) None
     = (Raise (ManifestLoadError settings error),
        Raise (AssetNotFoundError settings path)))
  /\ (forall path,
        twice (vite_asset_url settings host path) None
        = (Raise (ManifestLoadError settings error),
           Raise (AssetNotFoundError settings path)))
  /\ (forall path kwargs,
        twice (vite_legacy_asset settings host path kwargs) None
        = (Raise (ManifestLoadError settings error),
           Raise (AssetNotFoundError settings path)))
  /\ (forall kwargs,
        twice (vite_legacy_polyfills settings host kwargs) None
        = (Raise (ManifestLoadError settings error), Raise AttributeError)).
Proof.
  intros Hmode Hfail.
  assert (Hinst : instance settings host None
                  = (Raise (ManifestLoadError settings error),
                     Some (mkLoader None))).
  { unfold instance, _parse_manifest. rewrite Hmode.
    destruct Hfail as [Hread|(content & Hread & Hparse)]; rewrite Hread; simpl;
      [reflexivity | now rewrite Hparse]. }
  repeat split; intros;
    unfold twice, vite_asset, vite_asset_url, vite_legacy_asset,
      vite_legacy_polyfills; rewrite Hinst, instance_some; cbn [bind];
    unfold generate_vite_asset, generate_vite_asset_url,
      generate_vite_legacy_asset, generate_vite_legacy_polyfills;
    rewrite Hmode; reflexivity.
Qed.

(** ** The first rendering of a tag *)

(** X13.  In production mode, from a class with no loader, when the
    manifest file is read and parsed and the requested entry reaches, through
    imports, keys only and no cycle, the tag [vite_asset] returns the
    [<link>] tags of pairwise different CSS paths and the script tag of the
    entry, joined by newlines, and leaves in the class a loader holding the
    parsed manifest. *)
Theorem vite_asset_first_render (m : Manifest) (content path : string)
    (e : ManifestEntry) (kwargs : dict string) :
  DJANGO_VITE_DEV_MODE settings = false ->
  read_text host (DJANGO_VITE_MANIFEST_PATH settings) = inl content ->
  json_loads host content = inl m ->
  dict_get m path = Some e ->
  imports_closed m path ->
  ~ cycle_reachable m path ->
  exists links,
    NoDup links
    /\ forall fuel, length m < fuel ->
         vite_asset settings host fuel path kwargs None
         = (Return
              (join NL
                 (map (css_tag settings host) links
                  ++ [_generate_script_tag
                        (_generate_production_server_url settings host (file e))
                        (dict_update
                           [("type", "module"); ("crossorigin", EmptyString)]
                           kwargs)])),
            Some (mkLoader (Some m))).
Proof.
  intros Hmode Hread Hparse He Hclosed Hacyc.
  assert (Hp : dict_in path m = true) by (unfold dict_in; now rewrite He).
  destruct (walk_returns settings host m path [] Hp Hclosed Hacyc)
    as ([tags ap'] & Hret).
  destruct (walk_emits settings host m _ _ _ _ _
              (Hret _ (Nat.lt_succ_diag_r _))) as (links & -> & Hnd & _).
  exists links. split; [exact Hnd|]. intros fuel Hfuel.
  unfold vite_asset, instance, _parse_manifest.
  rewrite Hmode, Hread. cbn [negb]. rewrite Hparse. cbn [bind].
  rewrite (generate_vite_asset_production settings host m fuel path kwargs e
             Hmode He).
  now rewrite (Hret fuel Hfuel).
Qed.

End LoaderFacts.

(** ** Closed examples of the further properties *)

(** X3, on [diamond_manifest] with [x.css] processed beforehand. *)
Lemma css_walk_collects_diamond :
  exists links,
    [css_tag production built_host "b.css"; css_tag production built_host "c.css";
     css_tag production built_host "a.css"]
    = map (css_tag production built_host) links
    /\ NoDup links
    /\ forall c,
         In c links
         <-> (~ In c ["x.css"]
              /\ exists q, reaches diamond_manifest "a.js" q
                           /\ In c (css_of diamond_manifest q)).
Proof.
  exact (css_walk_collects production built_host diamond_manifest 2 "a.js"
           ["x.css"] _ _ eq_refl).
Defined.

(** X4, on [diamond_manifest]. *)
Lemma css_walk_again_diamond :
  exists ap'',
    _generate_css_files_of_asset production built_host 2
      (mkLoader (Some diamond_manifest)) "a.js"
      ["x.css"; "b.css"; "x.css"; "c.css"; "a.css"]
    = Return ([], ap'').
Proof.
  exact (css_walk_again production built_host diamond_manifest 2 "a.js" []
           _ _ eq_refl).
Defined.

(** X5, on the entry [main.js] of [legacy_manifest]. *)
Lemma asset_tag_src_is_asset_url_main :
  exists u links,
    generate_vite_asset_url production built_host
      (mkLoader (Some legacy_manifest)) "main.js" = Return u
    /\ _generate_script_tag "/static/assets/main.1.js"
         [("type", "module"); ("crossorigin", EmptyString)]
       = join NL
           (map (css_tag production built_host) links
            ++ [_generate_script_tag u
                  [("type", "module"); ("crossorigin", EmptyString)]]).
Proof.
  destruct (proj1 (asset_tag_src_is_asset_url production built_host)
              (mkLoader (Some legacy_manifest)) 1 "main.js" []
              (_generate_script_tag "/static/assets/main.1.js"
                 [("type", "module"); ("crossorigin", EmptyString)])
              eq_refl)
    as (u & links & Hu & Hs & _).
  exists u, links. split; [exact Hu | exact Hs].
Defined.

(** X6, on [legacy_manifest]. *)
Lemma polyfills_is_legacy_asset_sample :
  generate_vite_legacy_polyfills production built_host
    (mkLoader (Some legacy_manifest)) []
  = generate_vite_legacy_asset production built_host
      (mkLoader (Some legacy_manifest)) "vite/legacy-polyfills" [].
Proof.
  refine (polyfills_is_legacy_asset production built_host legacy_manifest
            [("main.js", entry "assets/main.1.js" None None)]
            [("other/legacy-polyfills", entry "assets/other.3.js" None None)]
            "vite/legacy-polyfills"
            (entry "assets/polyfills-legacy.2.js" None None) []
            eq_refl eq_refl _ eq_refl).
  intros k v [H|[]]. inversion H; subst. reflexivity.
Defined.

(** X7, on [legacy_manifest]: the tag is that of [main.js]. *)
Lemma polyfills_empty_motif_sample :
  generate_vite_legacy_polyfills empty_motif_settings built_host
    (mkLoader (Some legacy_manifest)) []
  = Return (_generate_script_tag "/static/assets/main.1.js"
              [("nomodule", EmptyString); ("crossorigin", EmptyString)]).
Proof.
  exact (proj1 (polyfills_empty_motif empty_motif_settings built_host []
                  eq_refl eq_refl)
           "main.js" (entry "assets/main.1.js" None None) _).
Defined.

(** X8, on the sample settings. *)
Lemma hmr_client_is_dev_asset_tag_sample :
  generate_vite_ws_client development broken_host []
  = generate_vite_asset development broken_host (mkLoader None) 0
      "@vite/client" []
  /\ vite_react_refresh production broken_host None = (Return EmptyString, None).
Proof.
  split.
  - exact (proj1 (hmr_client_is_dev_asset_tag development broken_host) eq_refl
             (mkLoader None) 0 []).
  - exact (proj2 (proj2 (hmr_client_is_dev_asset_tag production broken_host)
                    eq_refl [] None)).
Defined.

(** X9, on settings with no static URL. *)
Lemma empty_static_url_raises_sample :
  generate_vite_asset unset_static_settings broken_host (mkLoader None) 0
    "main.js" [] = Raise IndexError
  /\ generate_vite_legacy_asset unset_static_settings broken_host
       (mkLoader None) "main.js" [] = Return EmptyString.
Proof.
  destruct (empty_static_url_raises unset_static_settings broken_host
              (mkLoader None) 0 "main.js" [] eq_refl eq_refl)
    as (H1 & _ & _ & _ & H5 & _).
  split; [exact H1 | exact H5].
Defined.

(** X10, on the entry [main.js] of [legacy_manifest]. *)
Lemma leaf_entry_script_only_sample :
  generate_vite_asset production built_host (mkLoader (Some legacy_manifest)) 1
    "main.js" []
  = Return (_generate_script_tag "/static/assets/main.1.js"
              [("type", "module"); ("crossorigin", EmptyString)]).
Proof.
  exact (leaf_entry_script_only production built_host legacy_manifest "main.js"
           (entry "assets/main.1.js" None None) 0 []
           eq_refl eq_refl eq_refl eq_refl).
Defined.

(** X12, on a host whose manifest file cannot be read. *)
Lemma failed_load_then_retry_sample :
  twice (vite_asset production broken_host 4 "a.js" []) None
  = (Raise (ManifestLoadError production "No such file or directory"),
     Raise (AssetNotFoundError production "a.js"))
  /\ twice (vite_legacy_polyfills production broken_host []) None
     = (Raise (ManifestLoadError production "No such file or directory"),
        Raise AttributeError).
Proof.
  destruct (failed_load_then_retry production broken_host
              "No such file or directory" eq_refl (or_introl eq_refl))
    as (H1 & _ & _ & H4).
  split; [apply H1 | apply H4].
Defined.

(** X13, on [diamond_manifest] as the host parses it. *)
Lemma vite_asset_first_render_diamond :
  exists links,
    NoDup links
    /\ forall fuel, 3 < fuel ->
         vite_asset production built_host fuel "a.js" [] None
         = (Return
              (join NL
                 (map (css_tag production built_host) links
                  ++ [_generate_script_tag "/static/assets/a.1.js"
                        [("type", "module"); ("crossorigin", EmptyString)]])),
            Some (mkLoader (Some diamond_manifest))).
Proof.
  exact (vite_asset_first_render production built_host diamond_manifest
           "manifest.json as Vite wrote it" "a.js"
           (entry "assets/a.1.js" (Some ["b.js"; "c.js"]) (Some ["a.css"])) []
           eq_refl eq_refl eq_refl eq_refl
           (all_imports_keys_closed diamond_manifest eq_refl "a.js")
           (acyclic_no_cycle_reachable diamond_manifest "a.js"
              (ranked_acyclic sample_rank diamond_manifest eq_refl))).
Defined.
